(** * VC Data Server: the query-and-aggregation layer of [server.py]

    A shallow embedding of the tool functions of [server.py] and the
    properties of its record formatter, aggregation, cheque-range filter and
    similarity scorer.

    Conventions of the embedding.
    - A Python [str] is a Rocq [string], one [ascii] per character, read as
      the code points U+0000..U+00FF.  The bullet of the report lines
      (U+2022) is written as a literal and never measured or compared.
    - A column value is either [None] (SQL NULL, or what [dict.get] gives
      for an absent key) or a [str].
    - A record is a [dict] from column names to values: a [gmap].
    - Dictionaries whose iteration order reaches the output (frequency
      tables, the filter map) are association lists in insertion order.
    - A tool body is a computation in the monad [py]: it reads the process
      environment and the remote table, appends to a trace of observable
      events (queries submitted, divisions evaluated) and either returns or
      raises.
    - A percentage is a binary64 number, as in Python: the quotient of the
      two integers correctly rounded, times 100 rounded again, printed
      with one decimal from its exact binary value. *)

From Stdlib Require Import ZArith QArith Ascii String DecimalString.
From Stdlib Require Import Floats.SpecFloat.
From Stdlib Require Import List Permutation Sorted Lia.
From stdpp Require Import base gmap strings list.

Open Scope string_scope.
Open Scope list_scope.

(** ** Python values and built-ins *)

Module Py.

Inductive value : Type :=
| VNone
| VStr (s : string).

Definition value_eqb (a b : value) : bool :=
  match a, b with
  | VNone, VNone => true
  | VStr s, VStr t => String.eqb s t
  | _, _ => false
  end.

(** [bool(v)]: [None] and the empty string are falsy. *)
Definition truthy (v : value) : bool :=
  match v with
  | VNone => false
  | VStr s => negb (String.eqb s "")
  end.

(** [str(v)], as an f-string renders a value. *)
Definition str (v : value) : string :=
  match v with
  | VNone => "None"
  | VStr s => s
  end.

Definition str_of_nat (n : nat) : string :=
  NilZero.string_of_uint (Nat.to_uint n).

Definition str_of_Z (z : Z) : string :=
  NilZero.string_of_int (Z.to_int z).

Definition in_range (lo hi n : nat) : bool := (lo <=? n)%nat && (n <=? hi)%nat.

(** [str.lower] on one character: A-Z and the upper-case letters of the
    Latin-1 supplement (all of U+00C0..U+00DE but the multiplication sign). *)
Definition lower_char (c : ascii) : ascii :=
  let n := nat_of_ascii c in
  if in_range 65 90 n || (in_range 192 222 n && negb (n =? 215)%nat)
  then ascii_of_nat (n + 32)
  else c.

Fixpoint lower (s : string) : string :=
  match s with
  | EmptyString => EmptyString
  | String c s' => String (lower_char c) (lower s')
  end.

(** The characters [str.isspace] accepts below U+0100. *)
Definition is_space (c : ascii) : bool :=
  let n := nat_of_ascii c in
  in_range 9 13 n || in_range 28 32 n || (n =? 133)%nat || (n =? 160)%nat.

Fixpoint lstrip (s : string) : string :=
  match s with
  | EmptyString => EmptyString
  | String c s' => if is_space c then lstrip s' else s
  end.

Fixpoint rstrip (s : string) : string :=
  match s with
  | EmptyString => EmptyString
  | String c s' =>
      match rstrip s' with
      | EmptyString => if is_space c then EmptyString else String c EmptyString
      | r => String c r
      end
  end.

(** [s.strip()] *)
Definition strip (s : string) : string := rstrip (lstrip s).

(** [s.split(sep)] for a one-character separator: never empty, and empty
    fields are kept. *)
Fixpoint split_char (sep : ascii) (s : string) : list string :=
  match s with
  | EmptyString => [EmptyString]
  | String c s' =>
      if Ascii.eqb c sep then EmptyString :: split_char sep s'
      else match split_char sep s' with
           | [] => [String c EmptyString]
           | w :: ws => String c w :: ws
           end
  end.

(** [s.split()]: maximal runs of non-space characters. *)
Fixpoint split_ws_from (cur : string) (s : string) : list string :=
  match s with
  | EmptyString => if String.eqb cur "" then [] else [cur]
  | String c s' =>
      if is_space c
      then (if String.eqb cur "" then split_ws_from "" s'
            else cur :: split_ws_from "" s')
      else split_ws_from (cur +:+ String c EmptyString) s'
  end.

Definition split_ws (s : string) : list string := split_ws_from "" s.

Fixpoint startswith (p s : string) : bool :=
  match p, s with
  | EmptyString, _ => true
  | String a p', String b s' => Ascii.eqb a b && startswith p' s'
  | String _ _, EmptyString => false
  end.

(** [sub in s] *)
Fixpoint contains (sub s : string) : bool :=
  startswith sub s ||
  match s with
  | EmptyString => false
  | String _ s' => contains sub s'
  end.

(** [c in s] for one character. *)
Fixpoint has_char (c : ascii) (s : string) : bool :=
  match s with
  | EmptyString => false
  | String a s' => Ascii.eqb a c || has_char c s'
  end.

(** [a < b] and [a > b] on strings: lexicographic on code points. *)
Definition str_lt (a b : string) : bool := String.ltb a b.
Definition str_gt (a b : string) : bool := String.ltb b a.

(** [s[:n]] for a literal [n >= 0]. *)
Definition slice_to (n : nat) (s : string) : string := substring 0 n s.

(** [xs[:n]] on a list, for any integer [n]: a negative [n] counts from
    the end. *)
Definition take_to {A} (n : Z) (xs : list A) : list A :=
  if (0 <=? n)%Z then take (Z.to_nat n) xs
  else take (length xs - Z.to_nat (- n)) xs.

(** [sep.join(parts)] *)
Definition join (sep : string) (parts : list string) : string :=
  String.concat sep parts.

(** [s * n] *)
Fixpoint repeat_str (s : string) (n : nat) : string :=
  match n with
  | O => EmptyString
  | S n' => s +:+ repeat_str s n'
  end.

(** [enumerate(xs, start)] *)
Fixpoint enumerate {A} (start : nat) (xs : list A) : list (nat * A) :=
  match xs with
  | [] => []
  | x :: xs' => (start, x) :: enumerate (S start) xs'
  end.

Definition dquote : string := String (ascii_of_nat 34) EmptyString.
Definition nl : string := String (ascii_of_nat 10) EmptyString.

End Py.

(** ** Effects: environment, remote table, trace, exceptions *)

Module Eff.
Import Py.

(** One row of the table, as the client library returns it. *)
Abbreviation record := (gmap string value).

(** [record.get(key)] *)
Definition get (r : record) (key : string) : value :=
  default VNone (r !! key).

(** [record.get(key, dflt)]: the default replaces an absent key only. *)
Definition get_or (r : record) (key dflt : string) : value :=
  default (VStr dflt) (r !! key).

(** The query [fetch_data_from_supabase] builds before [execute()]. *)
Record query : Type := Query {
  q_table : string;
  q_select : string;
  q_eq : list (string * value);
  q_limit : option Z
}.

(** The exceptions that occur; all derive from [Exception]. *)
Inductive exn : Type :=
| ValueError (msg : string)
| TypeError (msg : string)
| ZeroDivisionError (msg : string)
| OverflowError (msg : string)
| Exception (msg : string).

(** [str(e)] *)
Definition exn_str (e : exn) : string :=
  match e with
  | ValueError m | TypeError m | ZeroDivisionError m | OverflowError m
  | Exception m => m
  end.

Inductive event : Type :=
| EFetch (q : query)
| EDiv (num den : nat).

(** What the client library does with a query: rows, or an exception with
    the given [str]. *)
Inductive response : Type :=
| Rows (data : list record)
| Failure (msg : string).

(** The surroundings of one call: the two environment variables and the
    remote table, whose answer may depend on what happened before. *)
Record world : Type := World {
  SUPABASE_URL : option string;
  SUPABASE_KEY : option string;
  remote : list event -> query -> response
}.

Inductive outcome (A : Type) : Type :=
| Return (a : A)
| Raise (e : exn).
Arguments Return {A} a.
Arguments Raise {A} e.

Definition py (A : Type) : Type := world -> list event -> outcome A * list event.

#[global] Instance py_ret : MRet py := fun A a _ tr => (Return a, tr).

#[global] Instance py_bind : MBind py := fun A B f m w tr =>
  match m w tr with
  | (Return a, tr') => f a w tr'
  | (Raise e, tr') => (Raise e, tr')
  end.

Definition raise {A} (e : exn) : py A := fun _ tr => (Raise e, tr).

(** [try: body  except Exception as e: handler(e)] *)
Definition try_except {A} (body : py A) (handler : exn -> py A) : py A :=
  fun w tr =>
    match body w tr with
    | (Return a, tr') => (Return a, tr')
    | (Raise e, tr') => handler e w tr'
    end.

Definition ask : py world := fun w tr => (Return w, tr).

Definition emit (ev : event) : py unit := fun _ tr => (Return tt, tr ++ [ev]).

(** [query.execute()] and everything else inside the [try] of
    [fetch_data_from_supabase]. *)
Definition execute (q : query) : py (list record) := fun w tr =>
  match remote w tr q with
  | Rows data => (Return data, tr ++ [EFetch q])
  | Failure msg => (Raise (Exception msg), tr ++ [EFetch q])
  end.

(** [for x in xs: acc = body(acc, x)] *)
Fixpoint for_each {A S} (xs : list A) (body : S -> A -> py S) (acc : S) : py S :=
  match xs with
  | [] => mret acc
  | x :: xs' => acc' ← body acc x; for_each xs' body acc'
  end.

(** [len(v)] *)
Definition len (v : value) : py nat :=
  match v with
  | VStr s => mret (String.length s)
  | VNone => raise (TypeError "object of type 'NoneType' has no len()")
  end.

(** Binary64: 53 bits of precision, infinities at exponent 1024. *)
Definition prec : Z := 53.
Definition emax : Z := 1024.

(** A non-negative integer as an operand: mantissa [n], exponent 0. *)
Definition float_of_nat (n : nat) : spec_float :=
  match n with
  | O => S754_zero false
  | S _ => S754_finite false (Pos.of_nat n) 0
  end.

(** [a / b] on integers, [b > 0]: the quotient rounded once, to the
    nearest binary64 number, ties to even. *)
Definition true_div (a b : nat) : spec_float :=
  SFdiv prec emax (float_of_nat a) (float_of_nat b).

(** The quotient [a / b] rounds beyond the largest binary64 number, where
    Python raises [OverflowError]: it is at least [2^1024 - 2^970], half
    way from the largest number to [2^1024]. *)
Definition overflows (a b : nat) : bool :=
  ((2 ^ 1024 - 2 ^ 970) * Z.of_nat b <=? Z.of_nat a)%Z.

(** The value of [(count / total) * 100] for [total > 0]: the quotient,
    then the product with 100.0 rounded in its turn. *)
Definition share (count total : nat) : spec_float :=
  SFmul prec emax (true_div count total) (float_of_nat 100).

(** [(count / total) * 100]: the division is recorded; it raises on a
    zero denominator and on a quotient too large for a float. *)
Definition percentage (count total : nat) : py spec_float :=
  _ ← emit (EDiv count total);
  match total with
  | O => raise (ZeroDivisionError "division by zero")
  | S _ =>
      if overflows count total
      then raise (OverflowError "integer division result too large for a float")
      else mret (share count total)
  end.

(** A rational [q >= 0] to one decimal, ties to even. *)
Definition decimal_1f (q : Q) : string :=
  let n := Z.mul (Qnum q) 10 in
  let d := Z.pos (Qden q) in
  let fl := Z.div n d in
  let r := Z.modulo n d in
  let tenths :=
    if (2 * r <? d)%Z then fl
    else if (d <? 2 * r)%Z then (fl + 1)%Z
    else if Z.even fl then fl else (fl + 1)%Z in
  str_of_Z (tenths / 10) +:+ "." +:+ str_of_Z (tenths mod 10).

(** The magnitude of a finite binary64 number, exactly. *)
Definition magnitude (m : positive) (e : Z) : Q :=
  match e with
  | Zneg p => Zpos m # (2 ^ p)%positive
  | _ => (Zpos m * 2 ^ e)%Z # 1
  end.

(** [f"{x:.1f}"]: the exact binary value rounded to one decimal, ties to
    even, after its sign. *)
Definition format_1f (x : spec_float) : string :=
  match x with
  | S754_zero s => (if s then "-" else "") +:+ "0.0"
  | S754_infinity s => (if s then "-" else "") +:+ "inf"
  | S754_nan => "nan"
  | S754_finite s m e => (if s then "-" else "") +:+ decimal_1f (magnitude m e)
  end.

(** [truthy] for an optional argument: [None] is falsy. *)
Definition given (o : option string) : bool :=
  match o with
  | Some s => negb (String.eqb s "")
  | None => false
  end.

Definition given_int (o : option Z) : bool :=
  match o with
  | Some n => negb (n =? 0)%Z
  | None => false
  end.

End Eff.

(** ** Insertion-ordered dictionaries, sets and [sorted] *)

Module Coll.
Import Py.

#[global] Instance value_eq_dec : EqDecision value.
Proof. solve_decision. Defined.

Section Dict.
Context {K V : Type} `{EqDecision K}.

(** [d.get(k)] *)
Fixpoint dict_get (d : list (K * V)) (k : K) : option V :=
  match d with
  | [] => None
  | (k', v) :: d' => if decide (k = k') then Some v else dict_get d' k
  end.

(** [d[k] = v]: an existing key keeps its position, a new key goes last. *)
Fixpoint dict_set (d : list (K * V)) (k : K) (v : V) : list (K * V) :=
  match d with
  | [] => [(k, v)]
  | (k', v') :: d' =>
      if decide (k = k') then (k, v) :: d' else (k', v') :: dict_set d' k v
  end.
End Dict.

(** [d[k] = d.get(k, 0) + 1] *)
Definition bump {K} `{EqDecision K} (d : list (K * nat)) (k : K) : list (K * nat) :=
  dict_set d k (default 0 (dict_get d k) + 1).

(** [sum(d.values())] *)
Definition total {K} (d : list (K * nat)) : nat := sum_list (d.*2).

Section Sorting.
Context {A : Type} (key : A -> nat).

Fixpoint insert_desc (x : A) (l : list A) : list A :=
  match l with
  | [] => [x]
  | y :: l' => if (key x <? key y)%nat then y :: insert_desc x l' else x :: l
  end.

(** [sorted(l, key=key, reverse=True)]: stable, so equal keys keep the
    order they had in [l]. *)
Fixpoint sorted_desc (l : list A) : list A :=
  match l with
  | [] => []
  | x :: l' => insert_desc x (sorted_desc l')
  end.

(** The order [sorted_desc] establishes between an entry and a later one. *)
Definition descending (a b : A) : Prop := (key b <= key a)%nat.
End Sorting.

Fixpoint insert_str (x : string) (l : list string) : list string :=
  match l with
  | [] => [x]
  | y :: l' => if str_lt y x then y :: insert_str x l' else x :: l
  end.

(** [sorted(s)] for a set of strings. *)
Definition sorted_set (s : gset string) : list string :=
  foldr insert_str [] (elements s).

End Coll.

(** ** The server *)

Module Server.
Import Py Eff Coll.

Definition quoted (name : string) : string := dquote +:+ name +:+ dquote.

(** The query the fetch builds: the chosen columns and the filter columns
    are quoted, and a falsy [limit] adds no limit. *)
Definition build_query
    (table_name : string)
    (select_columns : option (list string))
    (filters : option (list (string * value)))
    (limit : option Z) : query :=
  let columns :=
    match select_columns with
    | None => "*"
    | Some cols => join ", " (quoted <$> cols)
    end in
  let eqs :=
    match filters with
    | Some fs => (fun cv => (quoted cv.1, cv.2)) <$> fs
    | None => []
    end in
  let lim := if given_int limit then limit else None in
  Query table_name columns eqs lim.

Definition credentials_message : string :=
  "Supabase credentials not found. Please set SUPABASE_URL and SUPABASE_KEY "
  +:+ "environment variables or add them to your .env file.".

Definition fetch_data_from_supabase
    (table_name : string)
    (select_columns : option (list string))
    (filters : option (list (string * value)))
    (limit : option Z) : py (list record) :=
  w ← ask;
  let supabase_url := SUPABASE_URL w in
  let supabase_key := SUPABASE_KEY w in
  if negb (given supabase_url) || negb (given supabase_key) then
    raise (ValueError credentials_message)
  else
    try_except
      (execute (build_query table_name select_columns filters limit))
      (fun e => raise (Exception ("Error fetching data from Supabase: " +:+ exn_str e))).

(** [try: body  except Exception as e: return f"{phrase}{e}"], the frame of
    every tool that reads the table. *)
Definition guarded (phrase : string) (body : py string) : py string :=
  try_except body (fun e => mret (phrase +:+ exn_str e)).

Definition all_columns : list string :=
  [ "Investor name"; "Website"; "Global HQ"; "Countries of investment";
    "Stage of investment"; "Investment thesis"; "Investor type";
    "First cheque minimum"; "First cheque maximum" ].

(** The thesis as shown: cut to 100 characters and marked when longer. *)
Definition truncate_thesis (thesis : string) : string :=
  if (100 <? String.length thesis)%nat then slice_to 100 thesis +:+ "..." else thesis.

Definition thesis_text (thesis : value) : py string :=
  _ ← len thesis;
  mret (truncate_thesis (str thesis)).

(** The lines of a record from "Website" to "First Cheque", which the four
    listing tools share. *)
Definition detail_lines (investor : record) : string :=
  "   Website: " +:+ str (get_or investor "Website" "N/A") +:+ nl
  +:+ "   Global HQ: " +:+ str (get_or investor "Global HQ" "N/A") +:+ nl
  +:+ "   Countries: " +:+ str (get_or investor "Countries of investment" "N/A") +:+ nl
  +:+ "   Stage: " +:+ str (get_or investor "Stage of investment" "N/A") +:+ nl
  +:+ "   Type: " +:+ str (get_or investor "Investor type" "N/A") +:+ nl
  +:+ "   First Cheque: " +:+ str (get_or investor "First cheque minimum" "N/A")
  +:+ " - " +:+ str (get_or investor "First cheque maximum" "N/A") +:+ nl.

Definition thesis_lines (investor : record) : py string :=
  thesis ← thesis_text (get_or investor "Investment thesis" "N/A");
  mret ("   Thesis: " +:+ thesis +:+ nl +:+ repeat_str "-" 80 +:+ nl +:+ nl).

(** One pass of the display loop of the listing tools. *)
Definition show_investor (formatted_response : string) (entry : nat * record)
    : py string :=
  let '(i, investor) := entry in
  let formatted_response :=
    formatted_response +:+ str_of_nat i +:+ ". "
    +:+ str (get_or investor "Investor name" "N/A") +:+ nl
    +:+ detail_lines investor in
  tail ← thesis_lines investor;
  mret (formatted_response +:+ tail).

(** The display loop over the first ten records and the closing line. *)
Definition show_investors (header : string) (data : list record) : py string :=
  formatted_response ← for_each (enumerate 1 (take 10 data)) show_investor header;
  if (10 <? length data)%nat then
    mret (formatted_response +:+ "... and " +:+ str_of_nat (length data - 10)
          +:+ " more records.")
  else mret formatted_response.

Definition get_investor_data_body (limit : option Z) : py string :=
  data ← fetch_data_from_supabase "dec-2024" (Some all_columns) None limit;
  match data with
  | [] => mret "No investor data found."
  | _ =>
      show_investors
        ("Found " +:+ str_of_nat (length data) +:+ " investor records:" +:+ nl +:+ nl)
        data
  end.

Definition get_investor_data (limit : option Z) : py string :=
  guarded "An error occurred while fetching investor data: "
    (get_investor_data_body limit).

Definition investor_type_mapping : gmap string string :=
  list_to_map
    [ ("angel", "Angel network"); ("angel network", "Angel network");
      ("vc", "VC"); ("venture capital", "VC");
      ("pe", "PE"); ("private equity", "PE");
      ("cvc", "CVC"); ("corporate venture capital", "CVC") ].

Definition country_mapping : gmap string string :=
  list_to_map
    [ ("united states", "USA"); ("usa", "USA"); ("us", "USA"); ("america", "USA");
      ("united kingdom", "UK"); ("uk", "UK"); ("england", "UK");
      ("great britain", "UK"); ("germany", "Germany"); ("france", "France");
      ("canada", "Canada"); ("australia", "Australia"); ("japan", "Japan");
      ("china", "China"); ("india", "India"); ("singapore", "Singapore");
      ("netherlands", "Netherlands"); ("sweden", "Sweden");
      ("switzerland", "Switzerland"); ("israel", "Israel") ].

(** [filters[key] = f(arg)] when the optional argument is truthy. *)
Definition add_filter (arg : option string) (key : string) (f : string -> string)
    (filters : list (string * value)) : list (string * value) :=
  match arg with
  | Some a => if given arg then dict_set filters key (VStr (f a)) else filters
  | None => filters
  end.

(** [descs.append(f"{label}: {arg}")] when the optional argument is truthy. *)
Definition add_desc (arg : option string) (label : string) (descs : list string)
    : list string :=
  match arg with
  | Some a => if given arg then descs ++ [label +:+ ": " +:+ a] else descs
  | None => descs
  end.

Definition no_match_message (filter_desc : list string) : string :=
  let filter_str :=
    match filter_desc with
    | [] => "the specified criteria"
    | _ => join ", " filter_desc
    end in
  "No investors found matching " +:+ filter_str +:+ ".".

(** The filter map of the search, in the order its entries are set. *)
Definition search_filters (investor_type stage country hq_location : option string)
    : list (string * value) :=
  let filters := [] in
  let filters :=
    add_filter investor_type "Investor type"
      (fun t => default t (investor_type_mapping !! lower t)) filters in
  let filters := add_filter stage "Stage of investment" id filters in
  let filters :=
    add_filter country "Countries of investment"
      (fun c => default c (country_mapping !! lower c)) filters in
  add_filter hq_location "Global HQ" id filters.

Definition search_investors_by_criteria_body
    (investor_type stage country hq_location : option string)
    (limit : option Z) : py string :=
  let filters := search_filters investor_type stage country hq_location in
  data ← fetch_data_from_supabase "dec-2024" (Some all_columns) (Some filters) limit;
  match data with
  | [] =>
      let filter_desc := [] in
      let filter_desc := add_desc investor_type "type" filter_desc in
      let filter_desc := add_desc stage "stage" filter_desc in
      let filter_desc := add_desc country "country" filter_desc in
      let filter_desc := add_desc hq_location "HQ location" filter_desc in
      mret (no_match_message filter_desc)
  | _ =>
      show_investors
        ("Found " +:+ str_of_nat (length data) +:+ " investors matching your criteria:"
         +:+ nl +:+ nl)
        data
  end.

Definition search_investors_by_criteria
    (investor_type stage country hq_location : option string)
    (limit : option Z) : py string :=
  guarded "An error occurred while searching investors: "
    (search_investors_by_criteria_body investor_type stage country hq_location limit).

(** [for i, x in enumerate(sorted(names), 1): out += f"{i}. {x}\n"] *)
Definition numbered_lines (names : list string) : string :=
  foldl (fun out ix => out +:+ str_of_nat ix.1 +:+ ". " +:+ ix.2 +:+ nl)
        "" (enumerate 1 names).

Definition collect_investor_types (data : list record) : gset string :=
  foldl (fun (investor_types : gset string) record =>
           let investor_type := get record "Investor type" in
           if truthy investor_type then investor_types ∪ {[ str investor_type ]}
           else investor_types)
        ∅ data.

Definition get_available_investor_types_body : py string :=
  data ← fetch_data_from_supabase "dec-2024" (Some ["Investor type"]) None None;
  match data with
  | [] => mret "No investor data found."
  | _ =>
      let investor_types := collect_investor_types data in
      if decide (investor_types = ∅) then
        mret "No investor types found in the database."
      else
        mret ("Available investor types in the database:" +:+ nl +:+ nl
              +:+ numbered_lines (sorted_set investor_types)
              +:+ nl +:+ "Total: " +:+ str_of_nat (size investor_types)
              +:+ " unique investor types")
  end.

Definition get_available_investor_types : py string :=
  guarded "An error occurred while fetching investor types: "
    (get_available_investor_types_body).

(** The tokens one countries value stands for: the trimmed parts of a
    comma-separated list, or the value itself. *)
Definition comma : ascii := ascii_of_nat 44.

Definition collect_countries (data : list record) : gset string :=
  foldl (fun (countries : gset string) record =>
           let country := get record "Countries of investment" in
           if truthy country then
             if has_char comma (str country) then
               foldl (fun (countries : gset string) single_country =>
                        countries ∪ {[ strip single_country ]})
                     countries (split_char comma (str country))
             else countries ∪ {[ strip (str country) ]}
           else countries)
        ∅ data.

Definition get_available_countries_body : py string :=
  data ← fetch_data_from_supabase "dec-2024" (Some ["Countries of investment"]) None None;
  match data with
  | [] => mret "No investor data found."
  | _ =>
      let countries := collect_countries data in
      if decide (countries = ∅) then
        mret "No countries found in the database."
      else
        mret ("Available countries in the database:" +:+ nl +:+ nl
              +:+ numbered_lines (sorted_set countries)
              +:+ nl +:+ "Total: " +:+ str_of_nat (size countries)
              +:+ " unique countries")
  end.

Definition get_available_countries : py string :=
  guarded "An error occurred while fetching countries: "
    (get_available_countries_body).

Definition get_location_search_guide : py string :=
  mret (join nl
    [ "";
      "    Location Search Guide:";
      "    ";
      "    There are two different ways to search for investors by location:";
      "    ";
      "    1. COUNTRY OF INVESTMENT (country parameter):";
      "       - Uses country codes like " +:+ quoted "USA" +:+ ", " +:+ quoted "UK"
        +:+ ", " +:+ quoted "Germany";
      "       - Shows where the investor makes investments";
      "       - Example: " +:+ quoted "Find VCs in USA" +:+ " or "
        +:+ quoted "Angel investors in UK";
      "    ";
      "    2. GLOBAL HQ LOCATION (hq_location parameter):";
      "       - Uses full addresses like " +:+ quoted "San Francisco, CA" +:+ " or "
        +:+ quoted "New York, NY";
      "       - Shows where the investor's headquarters is located";
      "       - Example: " +:+ quoted "Investors headquartered in San Francisco"
        +:+ " or " +:+ quoted "VCs in New York";
      "    ";
      "    Tips:";
      "    - Use " +:+ quoted "country" +:+ " for broad geographic investment areas";
      "    - Use " +:+ quoted "hq_location" +:+ " for specific city/state searches";
      "    - You can search for cities, states, or countries in HQ location";
      "    - Country searches are more precise, HQ searches are more flexible";
      "    " ]).

(** The frequency table of one single-valued column: missing and empty
    values are passed over. *)
Definition count_column (column : string) (data : list record) : list (value * nat) :=
  foldl (fun counts record =>
           let v := get record column in
           if truthy v then bump counts v else counts)
        [] data.

Definition bullet : string := "•".

Definition analyze_investment_stages_body : py string :=
  data ← fetch_data_from_supabase "dec-2024" (Some ["Stage of investment"]) None None;
  match data with
  | [] => mret "No investor data found."
  | _ =>
      let stage_counts := count_column "Stage of investment" data in
      match stage_counts with
      | [] => mret "No investment stage data found."
      | _ =>
          let sorted_stages := sorted_desc snd stage_counts in
          let formatted_response := "Investment Stage Analysis:" +:+ nl +:+ nl in
          let total_investors := total stage_counts in
          formatted_response ←
            for_each sorted_stages
              (fun formatted_response sc =>
                 let '(stage, count) := sc in
                 percentage ← percentage count total_investors;
                 mret (formatted_response +:+ bullet +:+ " " +:+ str stage +:+ ": "
                       +:+ str_of_nat count +:+ " investors ("
                       +:+ format_1f percentage +:+ "%)" +:+ nl))
              formatted_response;
          mret (formatted_response
                +:+ nl +:+ "Total investors analyzed: " +:+ str_of_nat total_investors
                +:+ nl +:+ "Unique investment stages: "
                +:+ str_of_nat (length stage_counts))
      end
  end.

Definition analyze_investment_stages : py string :=
  guarded "An error occurred while analyzing investment stages: "
    (analyze_investment_stages_body).

(** The decision of the cheque loop for one record: [false] where the loop
    body reaches [continue] or clears [include_investor]. *)
Definition cheque_keeps (min_amount max_amount : option string) (investor : record)
    : bool :=
  let min_cheque := get investor "First cheque minimum" in
  let max_cheque := get investor "First cheque maximum" in
  if negb (truthy min_cheque) || negb (truthy max_cheque) then false
  else
    let include_investor := true in
    let include_investor :=
      match min_amount with
      | Some a =>
          if given min_amount then
            if str_lt (lower (str min_cheque)) (lower a) then false
            else include_investor
          else include_investor
      | None => include_investor
      end in
    let include_investor :=
      match max_amount with
      | Some a =>
          if given max_amount && include_investor then
            if str_gt (lower (str max_cheque)) (lower a) then false
            else include_investor
          else include_investor
      | None => include_investor
      end in
    include_investor.

Definition cheque_filter (min_amount max_amount : option string) (data : list record)
    : list record :=
  foldl (fun filtered_data investor =>
           if cheque_keeps min_amount max_amount investor
           then filtered_data ++ [investor] else filtered_data)
        [] data.

(** [if limit: xs = xs[:limit]] *)
Definition apply_limit {A} (limit : option Z) (xs : list A) : list A :=
  match limit with
  | Some n => if given_int limit then take_to n xs else xs
  | None => xs
  end.

Definition find_investors_by_cheque_size_body
    (min_amount max_amount : option string) (limit : option Z) : py string :=
  data ← fetch_data_from_supabase "dec-2024" (Some all_columns) None None;
  match data with
  | [] => mret "No investor data found."
  | _ =>
      let filtered_data := cheque_filter min_amount max_amount data in
      match filtered_data with
      | [] =>
          let filter_desc := [] in
          let filter_desc := add_desc min_amount "minimum" filter_desc in
          let filter_desc := add_desc max_amount "maximum" filter_desc in
          mret (no_match_message filter_desc)
      | _ =>
          let filtered_data := apply_limit limit filtered_data in
          show_investors
            ("Found " +:+ str_of_nat (length filtered_data)
             +:+ " investors matching your criteria:" +:+ nl +:+ nl)
            filtered_data
      end
  end.

Definition find_investors_by_cheque_size
    (min_amount max_amount : option string) (limit : option Z) : py string :=
  guarded "An error occurred while searching by cheque size: "
    (find_investors_by_cheque_size_body min_amount max_amount limit).

Record thesis_item : Type := ThesisItem {
  item_thesis : string;
  item_type : value;
  item_stage : value
}.

Definition common_keywords : list string :=
  [ "AI"; "artificial intelligence"; "machine learning"; "ML"; "fintech";
    "financial technology"; "healthtech"; "healthcare"; "SaaS"; "software";
    "enterprise"; "B2B"; "B2C"; "ecommerce"; "marketplace"; "platform"; "mobile";
    "biotech"; "biotechnology"; "clean energy"; "sustainability"; "cybersecurity";
    "security"; "blockchain"; "crypto"; "edtech"; "education"; "real estate";
    "proptech" ].

Definition collect_thesis_data (data : list record) : list thesis_item :=
  foldl (fun thesis_data record =>
           let thesis := get record "Investment thesis" in
           let investor_type := get record "Investor type" in
           let stage := get record "Stage of investment" in
           if truthy thesis && negb (value_eqb thesis (VStr "N/A"))
           then thesis_data ++ [ThesisItem (str thesis) investor_type stage]
           else thesis_data)
        [] data.

Definition count_keywords (thesis_data : list thesis_item) : list (string * nat) :=
  foldl (fun keyword_counts keyword =>
           let count :=
             length (filter (fun item => contains (lower keyword) (lower (item_thesis item)) = true)
                            thesis_data) in
           if (0 <? count)%nat then dict_set keyword_counts keyword count
           else keyword_counts)
        [] common_keywords.

Definition group_theses (thesis_data : list thesis_item) : list (value * list string) :=
  foldl (fun type_thesis item =>
           let investor_type := item_type item in
           let type_thesis :=
             match dict_get type_thesis investor_type with
             | None => dict_set type_thesis investor_type []
             | Some _ => type_thesis
             end in
           dict_set type_thesis investor_type
             (default [] (dict_get type_thesis investor_type) ++ [item_thesis item]))
        [] thesis_data.

Definition analyze_investment_thesis_body : py string :=
  data ← fetch_data_from_supabase "dec-2024"
           (Some ["Investment thesis"; "Investor type"; "Stage of investment"])
           None None;
  match data with
  | [] => mret "No investor data found."
  | _ =>
      let thesis_data := collect_thesis_data data in
      match thesis_data with
      | [] => mret "No investment thesis data found."
      | _ =>
          let keyword_counts := count_keywords thesis_data in
          let sorted_keywords := sorted_desc snd keyword_counts in
          let formatted_response := "Investment Thesis Analysis:" +:+ nl +:+ nl in
          let formatted_response :=
            formatted_response +:+ "Total investors with thesis data: "
            +:+ str_of_nat (length thesis_data) +:+ nl +:+ nl in
          let formatted_response :=
            formatted_response +:+ "Most Common Investment Themes:" +:+ nl in
          formatted_response ←
            for_each (take 10 sorted_keywords)
              (fun formatted_response kc =>
                 let '(keyword, count) := kc in
                 percentage ← percentage count (length thesis_data);
                 mret (formatted_response +:+ bullet +:+ " " +:+ keyword +:+ ": "
                       +:+ str_of_nat count +:+ " investors ("
                       +:+ format_1f percentage +:+ "%)" +:+ nl))
              formatted_response;
          let type_thesis := group_theses thesis_data in
          let formatted_response :=
            formatted_response +:+ nl +:+ "Thesis Analysis by Investor Type:" +:+ nl in
          mret (foldl (fun formatted_response tt =>
                         let '(investor_type, theses) := tt in
                         if (5 <? length theses)%nat then
                           formatted_response +:+ bullet +:+ " " +:+ str investor_type
                           +:+ ": " +:+ str_of_nat (length theses) +:+ " investors" +:+ nl
                         else formatted_response)
                      formatted_response type_thesis)
      end
  end.

Definition analyze_investment_thesis : py string :=
  guarded "An error occurred while analyzing investment thesis: "
    (analyze_investment_thesis_body).

(** The frequency table of the countries column: a value with a comma
    counts once for each trimmed part, any other value once as it is. *)
Definition count_countries (data : list record) : list (value * nat) :=
  foldl (fun country_counts record =>
           let countries := get record "Countries of investment" in
           if truthy countries then
             if has_char comma (str countries) then
               foldl (fun country_counts country =>
                        let country := strip country in
                        bump country_counts (VStr country))
                     country_counts (split_char comma (str countries))
             else bump country_counts countries
           else country_counts)
        [] data.

Definition collect_cheque_data (data : list record) : list (value * value) :=
  foldl (fun cheque_data record =>
           let min_cheque := get record "First cheque minimum" in
           let max_cheque := get record "First cheque maximum" in
           if truthy min_cheque && truthy max_cheque
              && negb (value_eqb min_cheque (VStr "N/A"))
              && negb (value_eqb max_cheque (VStr "N/A"))
           then cheque_data ++ [(min_cheque, max_cheque)]
           else cheque_data)
        [] data.

(** One "Top ..." loop of the statistics report: the first five entries,
    each with its share of [total_investors]. *)
Definition top_five (total_investors : nat) (sorted_counts : list (value * nat))
    (formatted_response : string) : py string :=
  for_each (take 5 sorted_counts)
    (fun formatted_response vc =>
       let '(v, count) := vc in
       percentage ← percentage count total_investors;
       mret (formatted_response +:+ bullet +:+ " " +:+ str v +:+ ": "
             +:+ str_of_nat count +:+ " (" +:+ format_1f percentage +:+ "%)" +:+ nl))
    formatted_response.

Definition get_investor_statistics_body : py string :=
  data ← fetch_data_from_supabase "dec-2024"
           (Some [ "Investor name"; "Investor type"; "Stage of investment";
                   "Countries of investment"; "Global HQ";
                   "First cheque minimum"; "First cheque maximum" ])
           None None;
  match data with
  | [] => mret "No investor data found."
  | _ =>
      let total_investors := length data in
      let type_counts := count_column "Investor type" data in
      let stage_counts := count_column "Stage of investment" data in
      let country_counts := count_countries data in
      let cheque_data := collect_cheque_data data in
      let formatted_response := "Investor Database Statistics:" +:+ nl +:+ nl in
      let formatted_response :=
        formatted_response +:+ "Total Investors: " +:+ str_of_nat total_investors
        +:+ nl +:+ nl in
      let sorted_types := sorted_desc snd type_counts in
      let formatted_response := formatted_response +:+ "Top Investor Types:" +:+ nl in
      formatted_response ← top_five total_investors sorted_types formatted_response;
      let sorted_stages := sorted_desc snd stage_counts in
      let formatted_response :=
        formatted_response +:+ nl +:+ "Top Investment Stages:" +:+ nl in
      formatted_response ← top_five total_investors sorted_stages formatted_response;
      let sorted_countries := sorted_desc snd country_counts in
      let formatted_response :=
        formatted_response +:+ nl +:+ "Top Investment Countries:" +:+ nl in
      formatted_response ← top_five total_investors sorted_countries formatted_response;
      match cheque_data with
      | [] => mret formatted_response
      | _ =>
          let formatted_response :=
            formatted_response +:+ nl +:+ "Cheque Size Data:" +:+ nl in
          let formatted_response :=
            formatted_response +:+ bullet +:+ " Investors with cheque data: "
            +:+ str_of_nat (length cheque_data) +:+ nl in
          percentage ← percentage (length cheque_data) total_investors;
          mret (formatted_response +:+ bullet +:+ " Percentage with cheque data: "
                +:+ format_1f percentage +:+ "%" +:+ nl)
      end
  end.

Definition get_investor_statistics : py string :=
  guarded "An error occurred while getting statistics: "
    (get_investor_statistics_body).

Record scored : Type := Scored {
  sc_investor : record;
  sc_score : nat;
  sc_factors : list string
}.

(** [any(word in investor_hq for word in target_hq.split())] *)
Definition shares_hq_word (target_hq investor_hq : string) : bool :=
  existsb (fun word => contains word investor_hq) (split_ws target_hq).

(** The body of the scoring loop after the name test: the score and the
    factor labels one candidate collects against the target. *)
Definition score_candidate (target_investor investor : record) : nat * list string :=
  let target_type := get target_investor "Investor type" in
  let target_stage := get target_investor "Stage of investment" in
  let target_countries := get target_investor "Countries of investment" in
  let score := 0 in
  let similarity_factors := [] in
  let '(score, similarity_factors) :=
    if value_eqb (get investor "Investor type") target_type
    then (score + 3, similarity_factors ++ ["same investor type"])
    else (score, similarity_factors) in
  let '(score, similarity_factors) :=
    if value_eqb (get investor "Stage of investment") target_stage
    then (score + 2, similarity_factors ++ ["same investment stage"])
    else (score, similarity_factors) in
  let '(score, similarity_factors) :=
    if value_eqb (get investor "Countries of investment") target_countries
    then (score + 2, similarity_factors ++ ["same investment countries"])
    else (score, similarity_factors) in
  let target_hq := get_or target_investor "Global HQ" "" in
  let investor_hq := get_or investor "Global HQ" "" in
  let '(score, similarity_factors) :=
    if truthy target_hq && truthy investor_hq
       && shares_hq_word (str target_hq) (str investor_hq)
    then (score + 1, similarity_factors ++ ["similar HQ location"])
    else (score, similarity_factors) in
  (score, similarity_factors).

(** The scoring loop: candidates named like the target are passed over,
    the others are kept when their score is positive. *)
Definition score_all (investor_name : string) (target_investor : record)
    (similar_data : list record) : list scored :=
  foldl (fun scored_investors investor =>
           if value_eqb (get investor "Investor name") (VStr investor_name)
           then scored_investors
           else
             let '(score, similarity_factors) := score_candidate target_investor investor in
             if (0 <? score)%nat
             then scored_investors ++ [Scored investor score similarity_factors]
             else scored_investors)
        [] similar_data.

Definition show_similar (formatted_response : string) (entry : nat * scored) : py string :=
  let '(i, item) := entry in
  let investor := sc_investor item in
  let score := sc_score item in
  let factors := sc_factors item in
  let formatted_response :=
    formatted_response +:+ str_of_nat i +:+ ". "
    +:+ str (get_or investor "Investor name" "N/A")
    +:+ " (Similarity Score: " +:+ str_of_nat score +:+ ")" +:+ nl
    +:+ detail_lines investor
    +:+ "   Similarity Factors: " +:+ join ", " factors +:+ nl in
  tail ← thesis_lines investor;
  mret (formatted_response +:+ tail).

Definition find_similar_investors_body (investor_name : string) (limit : option Z) : py string :=
  target_data ← fetch_data_from_supabase "dec-2024"
                  (Some [ "Investor name"; "Investor type"; "Stage of investment";
                          "Countries of investment"; "Global HQ" ])
                  (Some [("Investor name", VStr investor_name)])
                  (Some 1%Z);
  match target_data with
  | [] => mret ("No investor found with name '" +:+ investor_name +:+ "'.")
  | target_investor :: _ =>
      similar_data ← fetch_data_from_supabase "dec-2024" (Some all_columns) None None;
      match similar_data with
      | [] => mret "No investor data found."
      | _ =>
          let scored_investors := score_all investor_name target_investor similar_data in
          let scored_investors := sorted_desc sc_score scored_investors in
          match scored_investors with
          | [] => mret ("No similar investors found for '" +:+ investor_name +:+ "'.")
          | _ =>
              let scored_investors := apply_limit limit scored_investors in
              let formatted_response :=
                "Similar investors to '" +:+ investor_name +:+ "':" +:+ nl +:+ nl in
              formatted_response ←
                for_each (enumerate 1 (take 10 scored_investors)) show_similar
                  formatted_response;
              if (10 <? length scored_investors)%nat then
                mret (formatted_response +:+ "... and "
                      +:+ str_of_nat (length scored_investors - 10)
                      +:+ " more similar investors.")
              else mret formatted_response
          end
      end
  end.

Definition find_similar_investors (investor_name : string) (limit : option Z) : py string :=
  guarded "An error occurred while finding similar investors: "
    (find_similar_investors_body investor_name limit).

(** The tools registered with [@mcp.tool()], each with its arguments. *)
Inductive tool : Type :=
| GetInvestorData (limit : option Z)
| SearchInvestorsByCriteria (investor_type stage country hq_location : option string)
                            (limit : option Z)
| GetAvailableInvestorTypes
| GetAvailableCountries
| GetLocationSearchGuide
| AnalyzeInvestmentStages
| FindInvestorsByChequeSize (min_amount max_amount : option string) (limit : option Z)
| AnalyzeInvestmentThesis
| GetInvestorStatistics
| FindSimilarInvestors (investor_name : string) (limit : option Z).

Definition call (t : tool) : py string :=
  match t with
  | GetInvestorData limit => get_investor_data limit
  | SearchInvestorsByCriteria investor_type stage country hq_location limit =>
      search_investors_by_criteria investor_type stage country hq_location limit
  | GetAvailableInvestorTypes => get_available_investor_types
  | GetAvailableCountries => get_available_countries
  | GetLocationSearchGuide => get_location_search_guide
  | AnalyzeInvestmentStages => analyze_investment_stages
  | FindInvestorsByChequeSize min_amount max_amount limit =>
      find_investors_by_cheque_size min_amount max_amount limit
  | AnalyzeInvestmentThesis => analyze_investment_thesis
  | GetInvestorStatistics => get_investor_statistics
  | FindSimilarInvestors investor_name limit => find_similar_investors investor_name limit
  end.

End Server.

(** ** Notions the statements use *)

Module Spec.
Import Py Eff Coll Server.

(** Both environment variables are set and non-empty. *)
Definition configured (w : world) : Prop :=
  given (SUPABASE_URL w) = true /\ given (SUPABASE_KEY w) = true.

(** The lexicographic order of strings by code point. *)
Inductive lex_lt : string -> string -> Prop :=
| lex_shorter c t : lex_lt "" (String c t)
| lex_first a b s t :
    (nat_of_ascii a < nat_of_ascii b)%nat -> lex_lt (String a s) (String b t)
| lex_rest a s t : lex_lt s t -> lex_lt (String a s) (String a t).

(** How often the value [v] stands in a column. *)
Definition occurrences (column : string) (v : value) (data : list record) : nat :=
  length (filter (fun r => get r column = v) data).

(** The records whose value in a column is neither missing nor empty. *)
Definition present (column : string) (data : list record) : list record :=
  filter (fun r => truthy (get r column) = true) data.

(** The number of tokens a record with a countries value contributes. *)
Definition country_tokens (r : record) : nat :=
  let countries := str (get r "Countries of investment") in
  if has_char comma countries then length (split_char comma countries) else 1.

(** *** The cheque-range rule *)

(** Both cheque fields are there and non-empty. *)
Definition has_cheques (r : record) : Prop :=
  truthy (get r "First cheque minimum") = true
  /\ truthy (get r "First cheque maximum") = true.

(** A non-empty [min_amount] is given and the lower-cased minimum cheque
    sorts before it. *)
Definition min_rejects (min_amount : option string) (r : record) : Prop :=
  exists a, min_amount = Some a /\ a <> ""
            /\ lex_lt (lower (str (get r "First cheque minimum"))) (lower a).

(** A non-empty [max_amount] is given and the lower-cased maximum cheque
    sorts after it. *)
Definition max_rejects (max_amount : option string) (r : record) : Prop :=
  exists a, max_amount = Some a /\ a <> ""
            /\ lex_lt (lower a) (lower (str (get r "First cheque maximum"))).

(** *** The similarity rule *)

Definition same_field (column : string) (target investor : record) : bool :=
  value_eqb (get investor column) (get target column).

(** The candidate's HQ string contains a whitespace-delimited word of the
    target's HQ string. *)
Definition hq_overlap (target investor : record) : bool :=
  match get_or target "Global HQ" "", get_or investor "Global HQ" "" with
  | VStr t, VStr c => existsb (fun word => contains word c) (split_ws t)
  | _, _ => false
  end.

Definition weight (b : bool) (n : nat) : nat := if b then n else 0.

Definition similarity (target investor : record) : nat :=
  weight (same_field "Investor type" target investor) 3
  + weight (same_field "Stage of investment" target investor) 2
  + weight (same_field "Countries of investment" target investor) 2
  + weight (hq_overlap target investor) 1.

Definition label (b : bool) (name : string) : list string := if b then [name] else [].

Definition factor_labels (target investor : record) : list string :=
  label (same_field "Investor type" target investor) "same investor type"
  ++ label (same_field "Stage of investment" target investor) "same investment stage"
  ++ label (same_field "Countries of investment" target investor)
           "same investment countries"
  ++ label (hq_overlap target investor) "similar HQ location".

(** The candidates in encounter order: not named like the target, with a
    positive similarity. *)
Definition candidates (investor_name : string) (target : record) (data : list record)
    : list scored :=
  omap (fun r =>
          if decide (get r "Investor name" = VStr investor_name) then None
          else if decide (similarity target r = 0%nat) then None
          else Some (Scored r (similarity target r) (factor_labels target r)))
       data.

(** *** The layout of the reports *)

Definition concat_str (parts : list string) : string := foldr String.append "" parts.

(** The block of lines the listing shows for the [i]-th record. *)
Definition investor_block (i : nat) (investor : record) : string :=
  str_of_nat i +:+ ". " +:+ str (get_or investor "Investor name" "N/A") +:+ nl
  +:+ detail_lines investor
  +:+ "   Thesis: "
  +:+ truncate_thesis (str (get_or investor "Investment thesis" "N/A")) +:+ nl
  +:+ repeat_str "-" 80 +:+ nl +:+ nl.

Definition more_line (n : nat) : string :=
  if (10 <? n)%nat then "... and " +:+ str_of_nat (n - 10) +:+ " more records." else "".

(** A header, the blocks of the first ten records, and the closing line
    when there are more. *)
Definition listing (header : string) (data : list record) : string :=
  header
  +:+ concat_str ((fun ir => investor_block ir.1 ir.2) <$> enumerate 1 (take 10 data))
  +:+ more_line (length data).

(** The thesis of the record is text (or its key is absent). *)
Definition has_thesis_text (r : record) : Prop :=
  get_or r "Investment thesis" "N/A" <> VNone.

(** One line of the stage distribution, with the share taken of [whole]. *)
Definition stage_line (whole : nat) (vc : value * nat) : string :=
  bullet +:+ " " +:+ str vc.1 +:+ ": " +:+ str_of_nat vc.2 +:+ " investors ("
  +:+ format_1f (share vc.2 whole) +:+ "%)" +:+ nl.

(** One line of a "Top ..." section, with the share taken of [whole]. *)
Definition top_line (whole : nat) (vc : value * nat) : string :=
  bullet +:+ " " +:+ str vc.1 +:+ ": " +:+ str_of_nat vc.2 +:+ " ("
  +:+ format_1f (share vc.2 whole) +:+ "%)" +:+ nl.

(** The division a report line evaluates. *)
Definition division (whole : nat) (vc : value * nat) : event := EDiv vc.2 whole.

(** The first five entries of a table by descending count. *)
Definition top5 (table : list (value * nat)) : list (value * nat) :=
  take 5 (sorted_desc snd table).

Definition cheque_section (whole : nat) (cheque_data : list (value * value)) : string :=
  match cheque_data with
  | [] => ""
  | _ =>
      nl +:+ "Cheque Size Data:" +:+ nl
      +:+ bullet +:+ " Investors with cheque data: " +:+ str_of_nat (length cheque_data) +:+ nl
      +:+ bullet +:+ " Percentage with cheque data: "
      +:+ format_1f (share (length cheque_data) whole) +:+ "%" +:+ nl
  end.

Definition cheque_division (whole : nat) (cheque_data : list (value * value))
    : list event :=
  match cheque_data with
  | [] => []
  | _ => [EDiv (length cheque_data) whole]
  end.

(** *** The two reports with shares *)

Definition stage_query : query :=
  build_query "dec-2024" (Some ["Stage of investment"]) None None.

Definition statistics_query : query :=
  build_query "dec-2024"
    (Some [ "Investor name"; "Investor type"; "Stage of investment";
            "Countries of investment"; "Global HQ";
            "First cheque minimum"; "First cheque maximum" ])
    None None.

(** The rows of the stage distribution: the stage table by descending
    count. *)
Definition stage_rows (data : list record) : list (value * nat) :=
  sorted_desc snd (count_column "Stage of investment" data).

(** The stage distribution, every share taken of the number of records
    that have a stage. *)
Definition stage_report_text (data : list record) : string :=
  let whole := length (present "Stage of investment" data) in
  "Investment Stage Analysis:" +:+ nl +:+ nl
  +:+ concat_str (stage_line whole <$> stage_rows data)
  +:+ nl +:+ "Total investors analyzed: " +:+ str_of_nat whole
  +:+ nl +:+ "Unique investment stages: "
  +:+ str_of_nat (length (count_column "Stage of investment" data)).

Definition stage_divisions (data : list record) : list event :=
  division (length (present "Stage of investment" data)) <$> stage_rows data.

(** The statistics, every share taken of the number of all records. *)
Definition statistics_report_text (data : list record) : string :=
  let whole := length data in
  "Investor Database Statistics:" +:+ nl +:+ nl
  +:+ "Total Investors: " +:+ str_of_nat whole +:+ nl +:+ nl
  +:+ "Top Investor Types:" +:+ nl
  +:+ concat_str (top_line whole <$> top5 (count_column "Investor type" data))
  +:+ nl +:+ "Top Investment Stages:" +:+ nl
  +:+ concat_str (top_line whole <$> top5 (count_column "Stage of investment" data))
  +:+ nl +:+ "Top Investment Countries:" +:+ nl
  +:+ concat_str (top_line whole <$> top5 (count_countries data))
  +:+ cheque_section whole (collect_cheque_data data).

Definition statistics_divisions (data : list record) : list event :=
  let whole := length data in
  (division whole <$> top5 (count_column "Investor type" data))
  ++ (division whole <$> top5 (count_column "Stage of investment" data))
  ++ (division whole <$> top5 (count_countries data))
  ++ cheque_division whole (collect_cheque_data data).

(** *** Tools by kind *)

(** The phrase a tool puts before the text of an exception; the guide
    reads nothing and has none. *)
Definition failure_phrase (t : tool) : option string :=
  match t with
  | GetInvestorData _ => Some "An error occurred while fetching investor data: "
  | SearchInvestorsByCriteria _ _ _ _ _ => Some "An error occurred while searching investors: "
  | GetAvailableInvestorTypes => Some "An error occurred while fetching investor types: "
  | GetAvailableCountries => Some "An error occurred while fetching countries: "
  | GetLocationSearchGuide => None
  | AnalyzeInvestmentStages => Some "An error occurred while analyzing investment stages: "
  | FindInvestorsByChequeSize _ _ _ => Some "An error occurred while searching by cheque size: "
  | AnalyzeInvestmentThesis => Some "An error occurred while analyzing investment thesis: "
  | GetInvestorStatistics => Some "An error occurred while getting statistics: "
  | FindSimilarInvestors _ _ => Some "An error occurred while finding similar investors: "
  end.

(** What a tool runs inside its [try]. *)
Definition body (t : tool) : option (py string) :=
  match t with
  | GetInvestorData limit => Some (get_investor_data_body limit)
  | SearchInvestorsByCriteria investor_type stage country hq_location limit =>
      Some (search_investors_by_criteria_body investor_type stage country hq_location limit)
  | GetAvailableInvestorTypes => Some get_available_investor_types_body
  | GetAvailableCountries => Some get_available_countries_body
  | GetLocationSearchGuide => None
  | AnalyzeInvestmentStages => Some analyze_investment_stages_body
  | FindInvestorsByChequeSize min_amount max_amount limit =>
      Some (find_investors_by_cheque_size_body min_amount max_amount limit)
  | AnalyzeInvestmentThesis => Some analyze_investment_thesis_body
  | GetInvestorStatistics => Some get_investor_statistics_body
  | FindSimilarInvestors investor_name limit =>
      Some (find_similar_investors_body investor_name limit)
  end.

(** The query a tool submits first. *)
Definition first_query (t : tool) : option query :=
  match t with
  | GetInvestorData limit => Some (build_query "dec-2024" (Some all_columns) None limit)
  | SearchInvestorsByCriteria investor_type stage country hq_location limit =>
      Some (build_query "dec-2024" (Some all_columns)
              (Some (search_filters investor_type stage country hq_location)) limit)
  | GetAvailableInvestorTypes =>
      Some (build_query "dec-2024" (Some ["Investor type"]) None None)
  | GetAvailableCountries =>
      Some (build_query "dec-2024" (Some ["Countries of investment"]) None None)
  | GetLocationSearchGuide => None
  | AnalyzeInvestmentStages =>
      Some (build_query "dec-2024" (Some ["Stage of investment"]) None None)
  | FindInvestorsByChequeSize _ _ _ =>
      Some (build_query "dec-2024" (Some all_columns) None None)
  | AnalyzeInvestmentThesis =>
      Some (build_query "dec-2024"
              (Some ["Investment thesis"; "Investor type"; "Stage of investment"])
              None None)
  | GetInvestorStatistics =>
      Some (build_query "dec-2024"
              (Some [ "Investor name"; "Investor type"; "Stage of investment";
                      "Countries of investment"; "Global HQ";
                      "First cheque minimum"; "First cheque maximum" ])
              None None)
  | FindSimilarInvestors investor_name _ =>
      Some (build_query "dec-2024"
              (Some [ "Investor name"; "Investor type"; "Stage of investment";
                      "Countries of investment"; "Global HQ" ])
              (Some [("Investor name", VStr investor_name)])
              (Some 1%Z))
  end.

(** The listing and aggregation tools: list investors, list the distinct
    types and countries, stage distribution, thesis themes, statistics. *)
Definition lists_or_aggregates (t : tool) : bool :=
  match t with
  | GetInvestorData _ | GetAvailableInvestorTypes | GetAvailableCountries
  | AnalyzeInvestmentStages | AnalyzeInvestmentThesis | GetInvestorStatistics => true
  | _ => false
  end.

(** What a tool answers when its first query finds no row. *)
Definition empty_answer (t : tool) : option string :=
  match t with
  | GetInvestorData _ | GetAvailableInvestorTypes | GetAvailableCountries
  | AnalyzeInvestmentStages | AnalyzeInvestmentThesis | GetInvestorStatistics
  | FindInvestorsByChequeSize _ _ _ => Some "No investor data found."
  | SearchInvestorsByCriteria investor_type stage country hq_location _ =>
      Some (no_match_message
              (add_desc hq_location "HQ location"
                 (add_desc country "country"
                    (add_desc stage "stage" (add_desc investor_type "type" [])))))
  | FindSimilarInvestors investor_name _ =>
      Some ("No investor found with name '" +:+ investor_name +:+ "'.")
  | GetLocationSearchGuide => None
  end.

Definition is_division (ev : event) : bool :=
  match ev with
  | EDiv _ _ => true
  | EFetch _ => false
  end.

End Spec.

(** ** Notions for the remaining tools *)

Module Notions.
Import Py Eff Coll Server Spec.

(** *** Aliases and the filter map *)

(** What the search makes of a given investor type: the table entry of
    its lower-cased form, or the text as given. *)
Definition normalize_investor_type (t : string) : string :=
  default t (investor_type_mapping !! lower t).

Definition normalize_country (c : string) : string :=
  default c (country_mapping !! lower c).

(** The entry a criterion stands for in the filter map: none when it is
    absent or empty. *)
Definition filter_entry (arg : option string) (key : string) (f : string -> string)
    : list (string * value) :=
  match arg with
  | Some a => if given arg then [(key, VStr (f a))] else []
  | None => []
  end.

(** *** Text *)

Definition starts_with_space (s : string) : bool :=
  match s with
  | EmptyString => false
  | String c _ => is_space c
  end.

Fixpoint ends_with_space (s : string) : bool :=
  match s with
  | EmptyString => false
  | String c EmptyString => is_space c
  | String _ s' => ends_with_space s'
  end.

(** The names one countries value stands for. *)
Definition country_names (countries : string) : list string :=
  if has_char comma countries then strip <$> split_char comma countries
  else [strip countries].

(** The text of the [TypeError] that [len(None)] raises. *)
Definition no_len : string := "object of type 'NoneType' has no len()".

(** The header of the search and of the cheque-size listing. *)
Definition found_header (n : nat) : string :=
  "Found " +:+ str_of_nat n +:+ " investors matching your criteria:" +:+ nl +:+ nl.

(** *** Thesis analysis *)

(** The record has a thesis to analyse: neither missing, empty nor the
    placeholder. *)
Definition has_thesis (r : record) : Prop :=
  truthy (get r "Investment thesis") = true /\ get r "Investment thesis" <> VStr "N/A".

#[global] Instance has_thesis_dec (r : record) : Decision (has_thesis r).
Proof. unfold has_thesis. apply _. Defined.

Definition to_item (r : record) : thesis_item :=
  ThesisItem (str (get r "Investment thesis")) (get r "Investor type")
             (get r "Stage of investment").

(** The thesis mentions the keyword, whatever the case of either. *)
Definition mentions (keyword : string) (item : thesis_item) : bool :=
  contains (lower keyword) (lower (item_thesis item)).

(** The number of analysed theses that mention the keyword. *)
Definition mention_count (thesis_data : list thesis_item) (keyword : string) : nat :=
  length (filter (fun item => mentions keyword item = true) thesis_data).

(** The themes reported: the first ten keywords by descending count. *)
Definition themes (thesis_data : list thesis_item) : list (string * nat) :=
  take 10 (sorted_desc snd (count_keywords thesis_data)).

Definition theme_line (whole : nat) (kc : string * nat) : string :=
  bullet +:+ " " +:+ kc.1 +:+ ": " +:+ str_of_nat kc.2 +:+ " investors ("
  +:+ format_1f (share kc.2 whole) +:+ "%)" +:+ nl.

(** The line of an investor type with more than five theses; smaller
    groups have none. *)
Definition group_line (tt : value * list string) : string :=
  if (5 <? length tt.2)%nat
  then bullet +:+ " " +:+ str tt.1 +:+ ": " +:+ str_of_nat (length tt.2)
       +:+ " investors" +:+ nl
  else "".

Definition thesis_report_text (data : list record) : string :=
  let thesis_data := collect_thesis_data data in
  "Investment Thesis Analysis:" +:+ nl +:+ nl
  +:+ "Total investors with thesis data: " +:+ str_of_nat (length thesis_data)
  +:+ nl +:+ nl
  +:+ "Most Common Investment Themes:" +:+ nl
  +:+ concat_str (theme_line (length thesis_data) <$> themes thesis_data)
  +:+ nl +:+ "Thesis Analysis by Investor Type:" +:+ nl
  +:+ concat_str (group_line <$> group_theses thesis_data).

Definition thesis_query : query :=
  build_query "dec-2024"
    (Some ["Investment thesis"; "Investor type"; "Stage of investment"]) None None.

(** The theses of the items of one investor type, in their order. *)
Definition theses_of (v : value) (thesis_data : list thesis_item) : list string :=
  item_thesis <$> filter (fun item => item_type item = v) thesis_data.

(** One pass of the grouping loop. *)
Definition group_step (type_thesis : list (value * list string)) (item : thesis_item)
    : list (value * list string) :=
  let investor_type := item_type item in
  let type_thesis :=
    match dict_get type_thesis investor_type with
    | None => dict_set type_thesis investor_type []
    | Some _ => type_thesis
    end in
  dict_set type_thesis investor_type
    (default [] (dict_get type_thesis investor_type) ++ [item_thesis item]).

(** The number of theses in all groups. *)
Definition sizes (d : list (value * list string)) : nat := sum_list (length <$> d.*2).

(** *** The similarity listing *)

Definition similar_block (i : nat) (item : scored) : string :=
  str_of_nat i +:+ ". " +:+ str (get_or (sc_investor item) "Investor name" "N/A")
  +:+ " (Similarity Score: " +:+ str_of_nat (sc_score item) +:+ ")" +:+ nl
  +:+ detail_lines (sc_investor item)
  +:+ "   Similarity Factors: " +:+ join ", " (sc_factors item) +:+ nl
  +:+ "   Thesis: "
  +:+ truncate_thesis (str (get_or (sc_investor item) "Investment thesis" "N/A")) +:+ nl
  +:+ repeat_str "-" 80 +:+ nl +:+ nl.

Definition similar_more_line (n : nat) : string :=
  if (10 <? n)%nat
  then "... and " +:+ str_of_nat (n - 10) +:+ " more similar investors."
  else "".

Definition similar_listing (investor_name : string) (items : list scored) : string :=
  "Similar investors to '" +:+ investor_name +:+ "':" +:+ nl +:+ nl
  +:+ concat_str ((fun ix => similar_block ix.1 ix.2) <$> enumerate 1 (take 10 items))
  +:+ similar_more_line (length items).

Definition lookup_query (investor_name : string) : query :=
  build_query "dec-2024"
    (Some [ "Investor name"; "Investor type"; "Stage of investment";
            "Countries of investment"; "Global HQ" ])
    (Some [("Investor name", VStr investor_name)]) (Some 1%Z).

Definition scan_query : query := build_query "dec-2024" (Some all_columns) None None.

End Notions.

(** * Properties *)

(** ** The monad and the fetch *)

Module EffFacts.
Import Py Eff Coll Server Spec.

Lemma bind_unfold {A B} (m : py A) (f : A -> py B) w tr :
  (m ≫= f) w tr =
  match m w tr with
  | (Return a, tr') => f a w tr'
  | (Raise e, tr') => (Raise e, tr')
  end.
Proof. reflexivity. Qed.

Lemma bind_return {A B} (m : py A) (f : A -> py B) w tr a tr' :
  m w tr = (Return a, tr') -> (m ≫= f) w tr = f a w tr'.
Proof. intros H. rewrite bind_unfold, H. reflexivity. Qed.

Lemma bind_raise {A B} (m : py A) (f : A -> py B) w tr e tr' :
  m w tr = (Raise e, tr') -> (m ≫= f) w tr = (Raise e, tr').
Proof. intros H. rewrite bind_unfold, H. reflexivity. Qed.

(** Opens the body of whichever tool the goal calls. *)
Ltac open_body :=
  unfold get_investor_data, search_investors_by_criteria,
    get_available_investor_types, get_available_countries,
    analyze_investment_stages, find_investors_by_cheque_size,
    analyze_investment_thesis, get_investor_statistics, find_similar_investors;
  unfold get_investor_data_body, search_investors_by_criteria_body,
    get_available_investor_types_body, get_available_countries_body,
    analyze_investment_stages_body, find_investors_by_cheque_size_body,
    analyze_investment_thesis_body, get_investor_statistics_body,
    find_similar_investors_body.

Lemma guarded_return phrase body w tr s tr' :
  body w tr = (Return s, tr') -> guarded phrase body w tr = (Return s, tr').
Proof. intros H. unfold guarded, try_except. rewrite H. reflexivity. Qed.

Lemma guarded_raise phrase body w tr e tr' :
  body w tr = (Raise e, tr') ->
  guarded phrase body w tr = (Return (phrase +:+ exn_str e), tr').
Proof. intros H. unfold guarded, try_except. rewrite H. reflexivity. Qed.

(** A guarded body never raises. *)
Lemma guarded_total phrase body w tr :
  exists s tr', guarded phrase body w tr = (Return s, tr').
Proof.
  destruct (body w tr) as [[s | e] tr'] eqn:E.
  - exists s, tr'. exact (guarded_return _ _ _ _ _ _ E).
  - exists (phrase +:+ exn_str e), tr'. exact (guarded_raise _ _ _ _ _ _ E).
Qed.

Lemma fetch_unconfigured table cols filters limit w tr :
  ~ configured w ->
  fetch_data_from_supabase table cols filters limit w tr
  = (Raise (ValueError credentials_message), tr).
Proof.
  intros H. unfold fetch_data_from_supabase. rewrite bind_unfold. simpl.
  destruct (given (SUPABASE_URL w)) eqn:Eu; simpl; [|reflexivity].
  destruct (given (SUPABASE_KEY w)) eqn:Ek; simpl; [|reflexivity].
  exfalso. apply H. split; assumption.
Qed.

Lemma fetch_rows table cols filters limit w tr data :
  configured w ->
  remote w tr (build_query table cols filters limit) = Rows data ->
  fetch_data_from_supabase table cols filters limit w tr
  = (Return data, tr ++ [EFetch (build_query table cols filters limit)]).
Proof.
  intros [Hu Hk] H. unfold fetch_data_from_supabase. rewrite bind_unfold. simpl.
  rewrite Hu, Hk. simpl. unfold try_except, execute. rewrite H. reflexivity.
Qed.

Lemma fetch_failure table cols filters limit w tr msg :
  configured w ->
  remote w tr (build_query table cols filters limit) = Failure msg ->
  fetch_data_from_supabase table cols filters limit w tr
  = (Raise (Exception ("Error fetching data from Supabase: " +:+ msg)),
     tr ++ [EFetch (build_query table cols filters limit)]).
Proof.
  intros [Hu Hk] H. unfold fetch_data_from_supabase. rewrite bind_unfold. simpl.
  rewrite Hu, Hk. simpl. unfold try_except, execute. rewrite H. reflexivity.
Qed.

(** A loop whose body returns on every element it meets is a left fold,
    and its events are those of the passes in order. *)
Lemma for_each_steps {A S} (P : A -> Prop) (f : S -> A -> py S) (g : S -> A -> S)
    (ev : A -> list event) :
  (forall acc a w tr, P a -> f acc a w tr = (Return (g acc a), tr ++ ev a)) ->
  forall l acc w tr,
    Forall P l ->
    for_each l f acc w tr = (Return (foldl g acc l), tr ++ concat (ev <$> l)).
Proof.
  intros Hf l. induction l as [|a l IH]; intros acc w tr Hl; simpl.
  - rewrite app_nil_r. reflexivity.
  - apply Forall_cons in Hl as [Ha Hl].
    rewrite bind_unfold, Hf, IH, <- app_assoc by assumption. reflexivity.
Qed.

(** A loop stops at the first element on which its body raises. *)
Lemma for_each_raises {A S} (f : S -> A -> py S) (e : exn) (bad : A -> Prop) :
  (forall acc a w tr, bad a -> f acc a w tr = (Raise e, tr)) ->
  (forall acc a w tr, exists acc', f acc a w tr = (Return acc', tr)
                                   \/ f acc a w tr = (Raise e, tr)) ->
  forall l acc w tr,
    Exists bad l -> for_each l f acc w tr = (Raise e, tr).
Proof.
  intros Hbad Hany l. induction l as [|a l IH]; intros acc w tr Hl; simpl.
  - inversion Hl.
  - rewrite bind_unfold. destruct (Hany acc a w tr) as [acc' [Hr|Hr]]; rewrite Hr.
    + apply Exists_cons in Hl as [Ha|Hl]; [|now apply IH].
      rewrite (Hbad acc a w tr Ha) in Hr. discriminate.
    + reflexivity.
Qed.

(** A count that does not exceed the whole cannot overflow the quotient. *)
Lemma no_overflow (count whole : nat) :
  (count <= whole)%nat -> whole <> 0%nat -> overflows count whole = false.
Proof.
  intros Hle Hw. unfold overflows. apply Z.leb_gt.
  assert (HK : (1 < 2 ^ 1024 - 2 ^ 970)%Z) by reflexivity.
  generalize dependent (2 ^ 1024 - 2 ^ 970)%Z. intros K HK. nia.
Qed.

Lemma percentage_ok (count whole : nat) w tr :
  whole <> 0%nat ->
  overflows count whole = false ->
  percentage count whole w tr = (Return (share count whole), tr ++ [EDiv count whole]).
Proof.
  intros H Ho. destruct whole; [contradiction|].
  unfold percentage. rewrite bind_unfold. simpl. now rewrite Ho.
Qed.

End EffFacts.

(** ** Strings *)

Module StrFacts.
Import Py Spec.

Lemma append_cons (c : ascii) (s t : string) :
  String c s +:+ t = String c (s +:+ t).
Proof. reflexivity. Qed.

Lemma append_nil_l (s : string) : "" +:+ s = s.
Proof. reflexivity. Qed.

Lemma append_nil_r (s : string) : s +:+ "" = s.
Proof.
  induction s as [|c s IH]; [reflexivity|].
  now rewrite append_cons, IH.
Qed.

Lemma append_assoc (a b c : string) : (a +:+ b) +:+ c = a +:+ (b +:+ c).
Proof.
  induction a as [|x a IH]; [reflexivity|].
  now rewrite !append_cons, IH.
Qed.

Lemma length_append (a b : string) :
  String.length (a +:+ b) = (String.length a + String.length b)%nat.
Proof.
  induction a as [|x a IH]; [reflexivity|].
  rewrite append_cons. simpl. now rewrite IH.
Qed.

Lemma length_slice_to (n : nat) (s : string) :
  String.length (slice_to n s) = Nat.min n (String.length s).
Proof.
  unfold slice_to. revert s.
  induction n as [|n IH]; intros [|c s]; simpl; try reflexivity.
  now rewrite IH.
Qed.

(** [s[:n]] is the prefix of [s] that the rest of [s] completes. *)
Lemma slice_to_prefix (n : nat) (s : string) :
  exists rest, s = slice_to n s +:+ rest.
Proof.
  unfold slice_to. revert s.
  induction n as [|n IH]; intros [|c s]; simpl.
  - now exists "".
  - now exists (String c s).
  - now exists "".
  - destruct (IH s) as [rest Hr]. exists rest. now rewrite append_cons, <- Hr.
Qed.

Lemma slice_to_all (n : nat) (s : string) :
  (String.length s <= n)%nat -> slice_to n s = s.
Proof.
  unfold slice_to. revert s.
  induction n as [|n IH]; intros [|c s] H; simpl in *; try reflexivity; try lia.
  rewrite IH; [reflexivity | lia].
Qed.

Lemma ascii_compare_lt a b :
  Ascii.compare a b = Lt <-> (nat_of_ascii a < nat_of_ascii b)%nat.
Proof.
  unfold Ascii.compare, nat_of_ascii. rewrite N.compare_lt_iff. lia.
Qed.

Lemma ascii_compare_eq a b : Ascii.compare a b = Eq <-> a = b.
Proof.
  split; [apply Ascii.compare_eq_iff|].
  intros ->. unfold Ascii.compare. apply N.compare_refl.
Qed.

(** [<] on strings is the lexicographic order of the code points. *)
Lemma str_lt_spec (a b : string) : str_lt a b = true <-> lex_lt a b.
Proof.
  unfold str_lt, String.ltb. revert b.
  induction a as [|x a IH]; intros [|y b]; simpl.
  - split; [discriminate | inversion 1].
  - split; [constructor | reflexivity].
  - split; [discriminate | inversion 1].
  - destruct (Ascii.compare x y) eqn:E.
    + apply ascii_compare_eq in E. subst y. rewrite IH. split.
      * apply lex_rest.
      * inversion 1 as [| ? ? ? ? Hlt | ? ? ? Hrest]; subst; [lia | assumption].
    + apply ascii_compare_lt in E. split; [intros _; now apply lex_first | reflexivity].
    + split; [discriminate|].
      inversion 1 as [| ? ? ? ? Hlt | ? ? ? Hrest]; subst.
      * apply ascii_compare_lt in Hlt. congruence.
      * assert (Ascii.compare y y = Eq) by now apply ascii_compare_eq. congruence.
Qed.

(** The words of [s.split()] are never empty. *)
Lemma split_ws_from_nonempty (s cur w : string) :
  w ∈ split_ws_from cur s -> w <> "".
Proof.
  revert cur. induction s as [|c s IH]; intros cur; simpl.
  - destruct (String.eqb_spec cur ""); [inversion 1|].
    intros H%list_elem_of_singleton. now subst.
  - destruct (is_space c).
    + destruct (String.eqb_spec cur ""); [apply IH|].
      intros [->|H]%elem_of_cons; [assumption | now apply (IH "")].
    + apply IH.
Qed.

Lemma split_ws_nonempty (s w : string) : w ∈ split_ws s -> w <> "".
Proof. apply split_ws_from_nonempty. Qed.

Lemma contains_empty (w : string) : w <> "" -> contains w "" = false.
Proof. now destruct w. Qed.

(** [s.split(sep)] always has a first field. *)
Lemma split_char_length (sep : ascii) (s : string) :
  (1 <= length (split_char sep s))%nat.
Proof.
  induction s as [|c s IH]; simpl; [lia|].
  destruct (Ascii.eqb c sep); simpl; [lia|].
  destruct (split_char sep s); simpl; lia.
Qed.

End StrFacts.

(** ** Dictionaries and sorting *)

Module CollFacts.
Import Py Coll.

Section DictFacts.
Context {K : Type} `{EqDecision K}.
Implicit Types (d : list (K * nat)) (k : K).

Lemma total_cons k n d : total ((k, n) :: d) = (n + total d)%nat.
Proof. reflexivity. Qed.

(** One bump adds one to the sum of the counts. *)
Lemma total_bump d k : total (bump d k) = S (total d).
Proof.
  unfold bump. induction d as [|[k' n] d IH]; simpl.
  - reflexivity.
  - destruct (decide (k = k')) as [->|Hne]; simpl.
    + rewrite !total_cons. lia.
    + rewrite !total_cons, IH. lia.
Qed.

Lemma dict_get_set {V} (d : list (K * V)) k v k' :
  dict_get (dict_set d k v) k' = if decide (k' = k) then Some v else dict_get d k'.
Proof.
  induction d as [|[k0 v0] d IH]; simpl.
  - destruct (decide (k' = k)); reflexivity.
  - destruct (decide (k = k0)) as [->|Hne]; simpl.
    + destruct (decide (k' = k0)); reflexivity.
    + destruct (decide (k' = k0)) as [->|Hne'].
      * destruct (decide (k0 = k)); [congruence | reflexivity].
      * apply IH.
Qed.

Lemma dict_get_bump d k k' :
  dict_get (bump d k) k'
  = if decide (k' = k) then Some (default 0 (dict_get d k) + 1)%nat else dict_get d k'.
Proof. apply dict_get_set. Qed.

Lemma dict_set_keys_old {V} (d : list (K * V)) k v :
  k ∈ d.*1 -> (dict_set d k v).*1 = d.*1.
Proof.
  induction d as [|[k0 v0] d IH]; simpl; [inversion 1|].
  intros Hin. destruct (decide (k = k0)) as [->|Hne]; simpl; [reflexivity|].
  f_equal. apply IH. apply elem_of_cons in Hin as [?|?]; [congruence | assumption].
Qed.

Lemma dict_set_keys_new {V} (d : list (K * V)) k v :
  k ∉ d.*1 -> (dict_set d k v).*1 = d.*1 ++ [k].
Proof.
  induction d as [|[k0 v0] d IH]; simpl; [reflexivity|].
  intros Hnin. apply not_elem_of_cons in Hnin as [Hne Hnin].
  destruct (decide (k = k0)); [congruence|]. simpl. f_equal. now apply IH.
Qed.

(** Setting an entry keeps the keys distinct. *)
Lemma dict_set_NoDup {V} (d : list (K * V)) k v :
  NoDup d.*1 -> NoDup (dict_set d k v).*1.
Proof.
  intros Hd. destruct (decide (k ∈ d.*1)) as [Hin|Hnin].
  - now rewrite dict_set_keys_old.
  - rewrite dict_set_keys_new by assumption.
    apply NoDup_app. split; [assumption|]. split.
    + intros x Hx ->%list_elem_of_singleton. contradiction.
    + apply NoDup_singleton.
Qed.

Lemma dict_get_Some {V} (d : list (K * V)) k v :
  NoDup d.*1 -> dict_get d k = Some v <-> (k, v) ∈ d.
Proof.
  induction d as [|[k0 v0] d IH]; simpl; intros Hd.
  - split; [discriminate | inversion 1].
  - apply NoDup_cons in Hd as [Hk0 Hd].
    destruct (decide (k = k0)) as [->|Hne].
    + split.
      * intros [= ->]. left.
      * intros [[= ->]|Hin]%elem_of_cons; [reflexivity|].
        exfalso. apply Hk0. apply list_elem_of_fmap. now exists (k0, v).
    + rewrite IH by assumption. split.
      * now right.
      * intros [[= -> ->]|Hin]%elem_of_cons; [contradiction | assumption].
Qed.
End DictFacts.

Section SortFacts.
Context {A : Type} (key : A -> nat).
Implicit Types (l : list A) (x : A).

Lemma insert_desc_perm x l : insert_desc key x l ≡ₚ x :: l.
Proof.
  induction l as [|y l IH]; simpl; [reflexivity|].
  destruct (key x <? key y)%nat; [|reflexivity].
  rewrite IH. apply Permutation_swap.
Qed.

(** [sorted] rearranges, it neither drops nor invents entries. *)
Lemma sorted_desc_perm l : sorted_desc key l ≡ₚ l.
Proof.
  induction l as [|x l IH]; simpl; [reflexivity|].
  now rewrite insert_desc_perm, IH.
Qed.

Lemma sorted_desc_length l : length (sorted_desc key l) = length l.
Proof. now rewrite sorted_desc_perm. Qed.

Lemma insert_desc_sorted x l :
  StronglySorted (descending key) l -> StronglySorted (descending key) (insert_desc key x l).
Proof.
  induction 1 as [|y l Hl IH Hy]; simpl.
  - repeat constructor.
  - destruct (Nat.ltb_spec (key x) (key y)) as [Hlt|Hge].
    + constructor; [assumption|].
      rewrite insert_desc_perm. constructor; [unfold descending; lia | assumption].
    + constructor; [now constructor|].
      constructor; [assumption|].
      eapply Forall_impl; [exact Hy|]. unfold descending. intros; lia.
Qed.

(** The result is in descending order of the key. *)
Lemma sorted_desc_sorted l : StronglySorted (descending key) (sorted_desc key l).
Proof.
  induction l as [|x l IH]; simpl; [constructor | now apply insert_desc_sorted].
Qed.

Lemma insert_desc_stable (k : nat) x l :
  filter (fun a => key a = k) (insert_desc key x l)
  = filter (fun a => key a = k) (x :: l).
Proof.
  induction l as [|y l IH]; simpl; [reflexivity|].
  destruct (Nat.ltb_spec (key x) (key y)) as [Hlt|Hge]; [|reflexivity].
  rewrite (filter_cons _ y), IH, !filter_cons.
  destruct (decide (key y = k)), (decide (key x = k)); try reflexivity; lia.
Qed.

(** Entries with equal keys keep the order they had before sorting. *)
Lemma sorted_desc_stable (k : nat) l :
  filter (fun a => key a = k) (sorted_desc key l) = filter (fun a => key a = k) l.
Proof.
  induction l as [|x l IH]; simpl; [reflexivity|].
  now rewrite insert_desc_stable, !filter_cons, IH.
Qed.
End SortFacts.

End CollFacts.

(** ** Frequency tables *)

Module CountFacts.
Import Py Eff Coll Server Spec CollFacts StrFacts.

Lemma sum_list_cons (n : nat) (l : list nat) : sum_list (n :: l) = (n + sum_list l)%nat.
Proof. reflexivity. Qed.

Lemma count_column_from_total column data acc :
  total (foldl (fun counts record =>
                  let v := get record column in
                  if truthy v then bump counts v else counts) acc data)
  = (total acc + length (present column data))%nat.
Proof.
  unfold present. revert acc.
  induction data as [|r data IH]; intros acc; simpl; [lia|].
  rewrite IH, filter_cons. destruct (truthy (get r column)) eqn:E.
  - rewrite total_bump. rewrite decide_True by reflexivity. simpl. lia.
  - rewrite decide_False by discriminate. reflexivity.
Qed.

(** The counts of a column add up to the number of records that have a
    value there. *)
Lemma count_column_total column data :
  total (count_column column data) = length (present column data).
Proof. unfold count_column. now rewrite count_column_from_total. Qed.

Lemma count_column_from_NoDup column data acc :
  NoDup acc.*1 ->
  NoDup (foldl (fun counts record =>
                  let v := get record column in
                  if truthy v then bump counts v else counts) acc data).*1.
Proof.
  revert acc. induction data as [|r data IH]; intros acc Hacc; simpl; [assumption|].
  apply IH. destruct (truthy (get r column)); [|assumption].
  now apply dict_set_NoDup.
Qed.

Lemma count_column_NoDup column data : NoDup (count_column column data).*1.
Proof. apply count_column_from_NoDup. constructor. Qed.

Lemma count_column_from_get column data acc v :
  dict_get (foldl (fun counts record =>
                     let v := get record column in
                     if truthy v then bump counts v else counts) acc data) v
  = if truthy v && (0 <? occurrences column v data)%nat
    then Some (default 0 (dict_get acc v) + occurrences column v data)%nat
    else dict_get acc v.
Proof.
  unfold occurrences. revert acc.
  induction data as [|r data IH]; intros acc; simpl.
  - now rewrite andb_false_r.
  - rewrite IH, filter_cons. clear IH.
    destruct (decide (get r column = v)) as [->|Hne]; simpl.
    + destruct (truthy v) eqn:Ev; simpl; [|reflexivity].
      rewrite dict_get_bump, decide_True by reflexivity. simpl.
      destruct (0 <? length (filter (fun r => get r column = v) data))%nat eqn:E0.
      * f_equal. lia.
      * apply Nat.ltb_ge in E0. f_equal. lia.
    + destruct (truthy (get r column)) eqn:Er; [|reflexivity].
      rewrite dict_get_bump, decide_False by congruence. reflexivity.
Qed.

(** A value is in the table exactly when it is non-empty and occurs, and
    then with the number of its occurrences. *)
Lemma count_column_get column data v :
  dict_get (count_column column data) v
  = if truthy v && (0 <? occurrences column v data)%nat
    then Some (occurrences column v data) else None.
Proof. unfold count_column. now rewrite count_column_from_get. Qed.

Lemma bump_tokens_total (tokens : list string) (acc : list (value * nat)) :
  total (foldl (fun country_counts country =>
                  let country := strip country in
                  bump country_counts (VStr country)) acc tokens)
  = (total acc + length tokens)%nat.
Proof.
  revert acc. induction tokens as [|t tokens IH]; intros acc; simpl; [lia|].
  rewrite IH, total_bump. lia.
Qed.

Lemma count_countries_from_total data acc :
  total (foldl (fun country_counts record =>
           let countries := get record "Countries of investment" in
           if truthy countries then
             if has_char comma (str countries) then
               foldl (fun country_counts country =>
                        let country := strip country in
                        bump country_counts (VStr country))
                     country_counts (split_char comma (str countries))
             else bump country_counts countries
           else country_counts) acc data)
  = (total acc
     + sum_list (country_tokens <$> present "Countries of investment" data))%nat.
Proof.
  unfold present. revert acc.
  induction data as [|r data IH]; intros acc; simpl; [lia|].
  rewrite IH, filter_cons. clear IH.
  destruct (truthy (get r "Countries of investment")) eqn:E.
  - rewrite decide_True by reflexivity.
    rewrite fmap_cons, sum_list_cons.
    assert (Hr : country_tokens r
                 = if has_char comma (str (get r "Countries of investment"))
                   then length (split_char comma (str (get r "Countries of investment")))
                   else 1%nat) by reflexivity.
    destruct (has_char comma (str (get r "Countries of investment"))).
    + rewrite bump_tokens_total. lia.
    + rewrite total_bump. lia.
  - rewrite decide_False by discriminate. reflexivity.
Qed.

(** The counts of the countries table add up to the number of tokens of
    the records that have a countries value. *)
Lemma count_countries_total data :
  total (count_countries data)
  = sum_list (country_tokens <$> present "Countries of investment" data).
Proof. unfold count_countries. now rewrite count_countries_from_total. Qed.

Lemma country_tokens_pos r : (1 <= country_tokens r)%nat.
Proof.
  unfold country_tokens.
  destruct (has_char comma _); [apply split_char_length | lia].
Qed.

Lemma sum_list_at_least {A} (f : A -> nat) (l : list A) :
  (forall a, 1 <= f a)%nat -> (length l <= sum_list (f <$> l))%nat.
Proof.
  intros Hf. induction l as [|a l IH]; [reflexivity|].
  rewrite fmap_cons, sum_list_cons, length_cons. specialize (Hf a). lia.
Qed.

End CountFacts.

(** ** The claims about the pure parts *)

Module Claims.
Import Py Eff Coll Server Spec EffFacts StrFacts CollFacts CountFacts.

(** C9. For every record set, the counts of the frequency table of a
    single-valued column (investor type, stage) add up to the number of
    records with a non-empty value in that column, and the counts of the
    comma-split countries table add up to at least the number of records
    that contribute a token. *)
Theorem frequency_counts_sum (column : string) (data : list record) :
  total (count_column column data) = length (present column data)
  /\ total (count_countries data)
     = sum_list (country_tokens <$> present "Countries of investment" data)
  /\ (length (present "Countries of investment" data) <= total (count_countries data))%nat.
Proof.
  split; [apply count_column_total|].
  split; [apply count_countries_total|].
  rewrite count_countries_total.
  apply sum_list_at_least, country_tokens_pos.
Qed.

Lemma min_rejects_iff (min_amount : option string) (r : record) :
  min_rejects min_amount r
  <-> match min_amount with
      | Some a => given min_amount = true
                  /\ str_lt (lower (str (get r "First cheque minimum"))) (lower a) = true
      | None => False
      end.
Proof.
  unfold min_rejects. destruct min_amount as [a|]; simpl.
  - rewrite negb_true_iff, String.eqb_neq, str_lt_spec. split.
    + intros (a' & [= <-] & Ha & Hlt). now split.
    + intros [Ha Hlt]. now exists a.
  - split; [intros (a & [=] & _) | intros []].
Qed.

Lemma max_rejects_iff (max_amount : option string) (r : record) :
  max_rejects max_amount r
  <-> match max_amount with
      | Some a => given max_amount = true
                  /\ str_gt (lower (str (get r "First cheque maximum"))) (lower a) = true
      | None => False
      end.
Proof.
  unfold max_rejects, str_gt. destruct max_amount as [a|]; simpl.
  - rewrite negb_true_iff, String.eqb_neq.
    change (String.ltb (lower a) ?x) with (str_lt (lower a) x). rewrite str_lt_spec. split.
    + intros (a' & [= <-] & Ha & Hlt). now split.
    + intros [Ha Hlt]. now exists a.
  - split; [intros (a & [=] & _) | intros []].
Qed.

Lemma cheque_keeps_iff (min_amount max_amount : option string) (r : record) :
  cheque_keeps min_amount max_amount r = true
  <-> has_cheques r /\ ~ min_rejects min_amount r /\ ~ max_rejects max_amount r.
Proof.
  rewrite min_rejects_iff, max_rejects_iff. unfold cheque_keeps, has_cheques.
  destruct (truthy (get r "First cheque minimum")); simpl;
    [|split; [discriminate | intros [[[=] _] _]]].
  destruct (truthy (get r "First cheque maximum")); simpl;
    [|split; [discriminate | intros [[_ [=]] _]]].
  destruct min_amount as [a|], max_amount as [b|];
    repeat match goal with
           | |- context [given ?o] => destruct (given o)
           | |- context [str_lt ?x ?y] => destruct (str_lt x y)
           | |- context [str_gt ?x ?y] => destruct (str_gt x y)
           end; simpl; intuition congruence.
Qed.

Lemma cheque_filter_from (min_amount max_amount : option string) data acc :
  foldl (fun filtered_data investor =>
           if cheque_keeps min_amount max_amount investor
           then filtered_data ++ [investor] else filtered_data) acc data
  = acc ++ filter (fun r => cheque_keeps min_amount max_amount r = true) data.
Proof.
  revert acc. induction data as [|r data IH]; intros acc; simpl.
  - now rewrite app_nil_r.
  - rewrite IH, filter_cons. destruct (cheque_keeps min_amount max_amount r).
    + rewrite decide_True by reflexivity. now rewrite <- app_assoc.
    + rewrite decide_False by discriminate. reflexivity.
Qed.

(** C2, as stated, fails: a record with minimum cheque "9M" passes the
    bound "10M" and stays in the filtered list. *)
Lemma cheque_9M_passes_10M :
  let r : record :=
    {[ "First cheque minimum" := VStr "9M"; "First cheque maximum" := VStr "9M" ]} in
  cheque_keeps (Some "10M") None r <> false
  /\ length (cheque_filter (Some "10M") None [r]) = 1%nat
  /\ str_lt (lower "9M") (lower "10M") = false.
Proof.
  intros r. split; [|split].
  - assert (H : cheque_keeps (Some "10M") None r = true) by (vm_compute; reflexivity).
    rewrite H. discriminate.
  - vm_compute. reflexivity.
  - vm_compute. reflexivity.
Qed.

Lemma no_word_in_empty (t : string) :
  existsb (fun word => contains word "") (split_ws t) = false.
Proof.
  apply not_true_is_false. intros H. apply existsb_exists in H as (word & Hin & Hc).
  apply list_elem_of_In, split_ws_nonempty in Hin.
  now rewrite contains_empty in Hc.
Qed.

(** The guard of the HQ test adds nothing to the containment test. *)
Lemma hq_test_overlap (target investor : record) :
  truthy (get_or target "Global HQ" "") && truthy (get_or investor "Global HQ" "")
  && shares_hq_word (str (get_or target "Global HQ" "")) (str (get_or investor "Global HQ" ""))
  = hq_overlap target investor.
Proof.
  unfold hq_overlap, shares_hq_word.
  destruct (get_or target "Global HQ" "") as [|t]; [reflexivity|].
  destruct (get_or investor "Global HQ" "") as [|c].
  { change (truthy VNone) with false. now rewrite andb_false_r. }
  cbn [truthy str].
  destruct (String.eqb_spec t "") as [->|Ht]; [reflexivity|].
  destruct (String.eqb_spec c "") as [->|Hc]; [|reflexivity].
  cbn [negb andb]. symmetry. apply no_word_in_empty.
Qed.

Lemma score_candidate_spec (target investor : record) :
  score_candidate target investor = (similarity target investor, factor_labels target investor).
Proof.
  unfold score_candidate, similarity, factor_labels. rewrite hq_test_overlap.
  unfold same_field.
  destruct (value_eqb (get investor "Investor type") (get target "Investor type"));
  destruct (value_eqb (get investor "Stage of investment") (get target "Stage of investment"));
  destruct (value_eqb (get investor "Countries of investment")
                      (get target "Countries of investment"));
  destruct (hq_overlap target investor); reflexivity.
Qed.

Lemma value_eqb_eq (a b : value) : value_eqb a b = true <-> a = b.
Proof.
  destruct a as [|s], b as [|t]; simpl; try (split; [discriminate | congruence]).
  - split; reflexivity.
  - rewrite String.eqb_eq. split; congruence.
Qed.

Lemma score_all_from (investor_name : string) (target : record) data acc :
  foldl (fun scored_investors investor =>
           if value_eqb (get investor "Investor name") (VStr investor_name)
           then scored_investors
           else
             let '(score, similarity_factors) := score_candidate target investor in
             if (0 <? score)%nat
             then scored_investors ++ [Scored investor score similarity_factors]
             else scored_investors) acc data
  = acc ++ candidates investor_name target data.
Proof.
  unfold candidates. revert acc.
  induction data as [|r data IH]; intros acc; simpl.
  - now rewrite app_nil_r.
  - rewrite IH. clear IH. rewrite score_candidate_spec.
    destruct (value_eqb (get r "Investor name") (VStr investor_name)) eqn:En.
    + apply value_eqb_eq in En. now rewrite decide_True.
    + rewrite decide_False by (intros H; apply value_eqb_eq in H; congruence).
      destruct (decide (similarity target r = 0%nat)) as [Hz|Hnz].
      * rewrite Hz. reflexivity.
      * destruct (Nat.ltb_spec 0 (similarity target r)); [|lia].
        now rewrite <- app_assoc.
Qed.

End Claims.

(** ** The listing *)

Module ListingFacts.
Import Py Eff Coll Server Spec EffFacts StrFacts CollFacts.

Lemma foldl_append {A} (line : A -> string) (l : list A) (acc : string) :
  foldl (fun acc a => acc +:+ line a) acc l = acc +:+ concat_str (line <$> l).
Proof.
  revert acc. induction l as [|a l IH]; intros acc; simpl.
  - now rewrite append_nil_r.
  - now rewrite IH, append_assoc.
Qed.

Lemma concat_flat {A} (f : A -> event) (l : list A) :
  concat ((fun a => [f a]) <$> l) = f <$> l.
Proof.
  induction l as [|a l IH]; [reflexivity|].
  rewrite !fmap_cons. simpl. now f_equal.
Qed.

Lemma concat_silent {A} (l : list A) :
  concat ((fun _ => @nil event) <$> l) = [].
Proof. induction l as [|a l IH]; simpl; [reflexivity | exact IH]. Qed.

Lemma thesis_lines_text (investor : record) w tr :
  has_thesis_text investor ->
  thesis_lines investor w tr
  = (Return ("   Thesis: "
             +:+ truncate_thesis (str (get_or investor "Investment thesis" "N/A")) +:+ nl
             +:+ repeat_str "-" 80 +:+ nl +:+ nl), tr).
Proof.
  unfold has_thesis_text, thesis_lines, thesis_text.
  destruct (get_or investor "Investment thesis" "N/A"); [congruence | reflexivity].
Qed.

Lemma thesis_lines_null (investor : record) w tr :
  ~ has_thesis_text investor ->
  thesis_lines investor w tr
  = (Raise (TypeError "object of type 'NoneType' has no len()"), tr).
Proof.
  unfold has_thesis_text, thesis_lines, thesis_text.
  destruct (get_or investor "Investment thesis" "N/A"); [reflexivity|].
  intros H. exfalso. apply H. discriminate.
Qed.

Lemma show_investor_text acc (entry : nat * record) w tr :
  has_thesis_text entry.2 ->
  show_investor acc entry w tr
  = (Return (acc +:+ investor_block entry.1 entry.2), tr ++ []).
Proof.
  destruct entry as [i investor]. intros H. unfold show_investor.
  rewrite bind_unfold, thesis_lines_text by assumption.
  rewrite app_nil_r. unfold mret, py_ret, investor_block. simpl fst. simpl snd.
  f_equal. f_equal. now rewrite !append_assoc.
Qed.

Lemma enumerate_Forall {A} (P : A -> Prop) (l : list A) (start : nat) :
  Forall P l -> Forall (fun ir => P ir.2) (enumerate start l).
Proof.
  intros H. revert start. induction H as [|a l Ha Hl IH]; intros start; simpl.
  - constructor.
  - constructor; [exact Ha | apply IH].
Qed.

Lemma enumerate_Exists {A} (P : A -> Prop) (l : list A) (start : nat) :
  Exists P l -> Exists (fun ir => P ir.2) (enumerate start l).
Proof.
  intros H. revert start. induction H as [a l Ha|a l Hl IH]; intros start; simpl.
  - apply Exists_cons_hd. exact Ha.
  - apply Exists_cons_tl, IH.
Qed.

Lemma enumerate_length {A} (l : list A) (start : nat) :
  length (enumerate start l) = length l.
Proof. revert start. induction l as [|a l IH]; intros start; simpl; [|rewrite IH]; reflexivity. Qed.

(** When the theses of the displayed records are text, the display loop
    yields the listing and leaves no event. *)
Lemma show_investors_listing (header : string) (data : list record) w tr :
  Forall has_thesis_text (take 10 data) ->
  show_investors header data w tr = (Return (listing header data), tr).
Proof.
  intros H. unfold show_investors. rewrite bind_unfold.
  rewrite (for_each_steps (fun ir => has_thesis_text ir.2) show_investor
             (fun acc ir => acc +:+ investor_block ir.1 ir.2) (fun _ => []));
    [|intros; now apply show_investor_text | now apply enumerate_Forall].
  rewrite concat_silent, app_nil_r, foldl_append.
  unfold listing, more_line. destruct (10 <? length data)%nat.
  - unfold mret, py_ret. now rewrite append_assoc.
  - unfold mret, py_ret. now rewrite append_nil_r.
Qed.

End ListingFacts.

(** ** The claims about the tools *)

Module ToolClaims.
Import Py Eff Coll Server Spec EffFacts StrFacts CollFacts CountFacts ListingFacts.

Lemma enumerate_lookup {A} (l : list A) (start i : nat) :
  enumerate start l !! i = (fun x => ((start + i)%nat, x)) <$> l !! i.
Proof.
  revert start i. induction l as [|a l IH]; intros start [|i]; simpl; try reflexivity.
  - now rewrite Nat.add_0_r.
  - rewrite IH. now replace (S start + i)%nat with (start + S i)%nat by lia.
Qed.

(** The listing has one block for each of the first ten records, in their
    order and numbered from 1. *)
Lemma listing_blocks (data : list record) :
  length (enumerate 1 (take 10 data)) = Nat.min 10 (length data)
  /\ forall i r, (i < 10)%nat -> data !! i = Some r ->
                 enumerate 1 (take 10 data) !! i = Some (S i, r).
Proof.
  split.
  - now rewrite enumerate_length, length_take.
  - intros i r Hi Hr. rewrite enumerate_lookup, lookup_take_lt, Hr by assumption.
    reflexivity.
Qed.

(** With text for every displayed thesis, the plain listing tool returns
    the header with the exact count, the blocks of the first ten records
    and, when there are more than ten, the closing line with the rest. *)
Lemma get_investor_data_listing (limit : option Z) (data : list record) w tr :
  configured w ->
  remote w tr (build_query "dec-2024" (Some all_columns) None limit) = Rows data ->
  data <> [] ->
  Forall has_thesis_text (take 10 data) ->
  get_investor_data limit w tr
  = (Return (listing ("Found " +:+ str_of_nat (length data) +:+ " investor records:"
                      +:+ nl +:+ nl) data),
     tr ++ [EFetch (build_query "dec-2024" (Some all_columns) None limit)]).
Proof.
  intros Hw Hq Hne Hth. unfold get_investor_data, get_investor_data_body. apply guarded_return.
  rewrite bind_unfold, (fetch_rows _ _ _ _ _ _ data) by assumption.
  destruct data as [|r data]; [contradiction|].
  now apply show_investors_listing.
Qed.

Lemma show_investor_outcome acc (entry : nat * record) w tr :
  exists acc',
    show_investor acc entry w tr = (Return acc', tr)
    \/ show_investor acc entry w tr
       = (Raise (TypeError "object of type 'NoneType' has no len()"), tr).
Proof.
  destruct entry as [i investor]. unfold show_investor. rewrite bind_unfold.
  unfold thesis_lines, thesis_text.
  destruct (get_or investor "Investment thesis" "N/A").
  - exists acc. right. reflexivity.
  - eexists. left. reflexivity.
Qed.

(** A null thesis among the displayed records makes the listing tool
    answer with its error text instead of the listing. *)
Lemma get_investor_data_null_thesis (limit : option Z) (data : list record) w tr :
  configured w ->
  remote w tr (build_query "dec-2024" (Some all_columns) None limit) = Rows data ->
  Exists (fun r => ~ has_thesis_text r) (take 10 data) ->
  get_investor_data limit w tr
  = (Return "An error occurred while fetching investor data: object of type 'NoneType' has no len()",
     tr ++ [EFetch (build_query "dec-2024" (Some all_columns) None limit)]).
Proof.
  intros Hw Hq Hex. unfold get_investor_data, get_investor_data_body.
  transitivity
    (@Return string ("An error occurred while fetching investor data: "
             +:+ exn_str (TypeError "object of type 'NoneType' has no len()")),
     tr ++ [EFetch (build_query "dec-2024" (Some all_columns) None limit)]);
    [|reflexivity].
  apply guarded_raise.
  rewrite bind_unfold, (fetch_rows _ _ _ _ _ _ data) by assumption.
  destruct data as [|r data]; [inversion Hex|].
  unfold show_investors. rewrite bind_unfold.
  rewrite (for_each_raises show_investor
             (TypeError "object of type 'NoneType' has no len()")
             (fun ir => ~ has_thesis_text ir.2)); [reflexivity | | | ].
  - intros acc [i investor] w' tr' Hbad. unfold show_investor.
    rewrite bind_unfold, thesis_lines_null by assumption. reflexivity.
  - intros. apply show_investor_outcome.
  - exact (enumerate_Exists (fun r => ~ has_thesis_text r) _ _ Hex).
Qed.

(** C5, at a failing input.  One record whose thesis column is null: the
    listing tool gives no header and no block but its error text. *)
Theorem listing_fails_on_null_thesis :
  let r : record := {[ "Investor name" := VStr "Acme"; "Investment thesis" := VNone ]} in
  let w := World (Some "https://db") (Some "key") (fun _ _ => Rows [r]) in
  (get_investor_data None w []).1
  = Return "An error occurred while fetching investor data: object of type 'NoneType' has no len()".
Proof. reflexivity. Qed.

(** C10. A limit of 0 is no limit: the fetch builds the query it builds
    without a limit, the filtered or scored list is not cut, and each
    tool with a [limit] argument does at 0 what it does without one. *)
Theorem zero_limit_is_no_limit :
  (forall table cols filters,
      build_query table cols filters (Some 0%Z) = build_query table cols filters None
      /\ q_limit (build_query table cols filters (Some 0%Z)) = None)
  /\ (forall (A : Type) (xs : list A), apply_limit (Some 0%Z) xs = xs)
  /\ (forall w tr, get_investor_data (Some 0%Z) w tr = get_investor_data None w tr)
  /\ (forall investor_type stage country hq_location w tr,
        search_investors_by_criteria investor_type stage country hq_location (Some 0%Z) w tr
        = search_investors_by_criteria investor_type stage country hq_location None w tr)
  /\ (forall min_amount max_amount w tr,
        find_investors_by_cheque_size min_amount max_amount (Some 0%Z) w tr
        = find_investors_by_cheque_size min_amount max_amount None w tr)
  /\ (forall investor_name w tr,
        find_similar_investors investor_name (Some 0%Z) w tr
        = find_similar_investors investor_name None w tr).
Proof.
  repeat split; reflexivity.
Qed.

(** C7. When the lookup of the target returns no record, the tool answers
    that no investor has that name; the lookup is the only query it
    submits, so nothing is fetched to score. *)
Theorem similar_without_target (investor_name : string) (limit : option Z) w tr :
  let lookup :=
    build_query "dec-2024"
      (Some [ "Investor name"; "Investor type"; "Stage of investment";
              "Countries of investment"; "Global HQ" ])
      (Some [("Investor name", VStr investor_name)]) (Some 1%Z) in
  configured w ->
  remote w tr lookup = Rows [] ->
  find_similar_investors investor_name limit w tr
  = (Return ("No investor found with name '" +:+ investor_name +:+ "'."),
     tr ++ [EFetch lookup]).
Proof.
  intros lookup Hw Hq. unfold find_similar_investors, find_similar_investors_body. apply guarded_return.
  rewrite bind_unfold, (fetch_rows _ _ _ _ _ _ []) by assumption. reflexivity.
Qed.

Lemma similar_without_target_witness :
  let w := World (Some "https://db") (Some "key") (fun _ _ => Rows []) in
  (find_similar_investors "Acme Ventures" None w []).1
  = Return "No investor found with name 'Acme Ventures'."
  /\ length (find_similar_investors "Acme Ventures" None w []).2 = 1%nat.
Proof.
  intros w.
  rewrite (similar_without_target "Acme Ventures" None w []);
    [split; reflexivity | split; reflexivity | reflexivity].
Defined.

(** C8. On an empty table every listing or aggregation tool answers "No
    investor data found."  Whatever the tool, an empty answer to its first
    query ends the call with its message for that case: the query is the
    only event, so no division is evaluated. *)
Theorem empty_table_no_data (t : tool) (q : query) w tr :
  first_query t = Some q ->
  configured w ->
  remote w tr q = Rows [] ->
  exists answer events,
    call t w tr = (Return answer, tr ++ events)
    /\ empty_answer t = Some answer
    /\ (lists_or_aggregates t = true -> answer = "No investor data found.")
    /\ events = [EFetch q]
    /\ Forall (fun ev => is_division ev = false) events.
Proof.
  intros Hq Hw Hr.
  destruct t; try discriminate Hq; injection Hq as <-;
    eexists _, [EFetch _];
    (split; [simpl call; open_body; apply guarded_return;
             rewrite bind_unfold, (fetch_rows _ _ _ _ _ _ []) by assumption;
             cbv beta zeta iota; reflexivity|]);
    (split; [reflexivity|]);
    (split; [try discriminate; reflexivity|]);
    (split; [reflexivity | repeat constructor]).
Qed.

Lemma empty_table_no_data_witness :
  let w := World (Some "https://db") (Some "key") (fun _ _ => Rows []) in
  exists answer events,
    call GetInvestorStatistics w [] = (Return answer, [] ++ events)
    /\ empty_answer GetInvestorStatistics = Some answer
    /\ (lists_or_aggregates GetInvestorStatistics = true
        -> answer = "No investor data found.")
    /\ events = [EFetch statistics_query]
    /\ Forall (fun ev => is_division ev = false) events.
Proof.
  intros w.
  apply (empty_table_no_data GetInvestorStatistics statistics_query w []);
    [reflexivity | split; reflexivity | reflexivity].
Defined.

Lemma call_unconfigured (t : tool) (phrase : string) w tr :
  failure_phrase t = Some phrase ->
  ~ configured w ->
  call t w tr = (Return (phrase +:+ credentials_message), tr).
Proof.
  intros Hp Hw.
  destruct t; simpl in Hp; try discriminate Hp; injection Hp as <-; simpl call; open_body;
    apply (guarded_raise _ _ _ _ (ValueError credentials_message));
    rewrite bind_unfold, fetch_unconfigured by assumption; reflexivity.
Qed.

Lemma call_fetch_failure (t : tool) (phrase : string) (q : query) (msg : string) w tr :
  failure_phrase t = Some phrase ->
  first_query t = Some q ->
  configured w ->
  remote w tr q = Failure msg ->
  call t w tr
  = (Return (phrase +:+ "Error fetching data from Supabase: " +:+ msg), tr ++ [EFetch q]).
Proof.
  intros Hp Hq Hw Hr.
  destruct t; simpl in Hp; try discriminate Hp; injection Hp as <-;
    injection Hq as <-; simpl call; open_body;
    apply (guarded_raise _ _ _ _
             (Exception ("Error fetching data from Supabase: " +:+ msg)));
    rewrite bind_unfold, (fetch_failure _ _ _ _ _ _ msg) by assumption; reflexivity.
Qed.

(** The second fetch of the similarity tool fails the same way. *)
Lemma similar_second_fetch_failure (investor_name : string) (limit : option Z)
    (target : record) (others : list record) (msg : string) w tr :
  let lookup :=
    build_query "dec-2024"
      (Some [ "Investor name"; "Investor type"; "Stage of investment";
              "Countries of investment"; "Global HQ" ])
      (Some [("Investor name", VStr investor_name)]) (Some 1%Z) in
  let scan := build_query "dec-2024" (Some all_columns) None None in
  configured w ->
  remote w tr lookup = Rows (target :: others) ->
  remote w (tr ++ [EFetch lookup]) scan = Failure msg ->
  find_similar_investors investor_name limit w tr
  = (Return ("An error occurred while finding similar investors: "
             +:+ "Error fetching data from Supabase: " +:+ msg),
     (tr ++ [EFetch lookup]) ++ [EFetch scan]).
Proof.
  intros lookup scan Hw H1 H2. unfold find_similar_investors, find_similar_investors_body.
  apply (guarded_raise _ _ _ _
           (Exception ("Error fetching data from Supabase: " +:+ msg))).
  rewrite bind_unfold, (fetch_rows _ _ _ _ _ _ (target :: others)) by assumption.
  rewrite bind_unfold, (fetch_failure _ _ _ _ _ _ msg) by assumption. reflexivity.
Qed.

Lemma call_body (t : tool) (phrase : string) (b : py string) w tr :
  failure_phrase t = Some phrase ->
  body t = Some b ->
  (forall e tr', b w tr = (Raise e, tr') ->
                 call t w tr = (Return (phrase +:+ exn_str e), tr'))
  /\ (forall s tr', b w tr = (Return s, tr') -> call t w tr = (Return s, tr')).
Proof.
  intros Hp Hb.
  destruct t; simpl in Hp; try discriminate Hp; injection Hp as <-;
    injection Hb as <-; simpl call;
    (split; [intros e tr'; apply guarded_raise | intros s tr'; apply guarded_return]).
Qed.

(** C4. Every tool, on every input and whatever the remote table does,
    returns a string: no exception leaves it.  Whatever is raised inside
    a tool comes back as the fixed phrase of that tool followed by the
    text of the exception; so it is when the credentials are missing and
    when the fetch fails. *)
Theorem tools_always_return_text (t : tool) (w : world) (tr : list event) :
  (exists s tr', call t w tr = (Return s, tr'))
  /\ (forall phrase b,
        failure_phrase t = Some phrase -> body t = Some b ->
        (forall e tr', b w tr = (Raise e, tr') ->
                       call t w tr = (Return (phrase +:+ exn_str e), tr'))
        /\ (forall s tr', b w tr = (Return s, tr') -> call t w tr = (Return s, tr')))
  /\ (forall phrase, failure_phrase t = Some phrase ->
        ~ configured w ->
        call t w tr = (Return (phrase +:+ credentials_message), tr))
  /\ (forall phrase q msg,
        failure_phrase t = Some phrase -> first_query t = Some q ->
        configured w -> remote w tr q = Failure msg ->
        call t w tr
        = (Return (phrase +:+ "Error fetching data from Supabase: " +:+ msg),
           tr ++ [EFetch q])).
Proof.
  split; [|split; [|split]].
  - destruct t; simpl call; open_body; try apply guarded_total.
    eexists _, _. reflexivity.
  - intros phrase b. apply call_body.
  - intros phrase. apply call_unconfigured.
  - intros phrase q msg. apply call_fetch_failure.
Qed.

Lemma tools_always_return_text_witness :
  let down := World (Some "https://db") (Some "key") (fun _ _ => Failure "timed out") in
  let bare := World None None (fun _ _ => Rows []) in
  (call AnalyzeInvestmentStages down []).1
  = Return ("An error occurred while analyzing investment stages: "
            +:+ "Error fetching data from Supabase: " +:+ "timed out")
  /\ (call GetInvestorStatistics bare []).1
     = Return ("An error occurred while getting statistics: " +:+ credentials_message).
Proof.
  intros down bare. split.
  - rewrite (proj2 (proj2 (proj2 (tools_always_return_text AnalyzeInvestmentStages down [])))
               "An error occurred while analyzing investment stages: "
               (build_query "dec-2024" (Some ["Stage of investment"]) None None)
               "timed out");
      [reflexivity | reflexivity | reflexivity | split; reflexivity | reflexivity].
  - rewrite (proj1 (proj2 (proj2 (tools_always_return_text GetInvestorStatistics bare [])))
               "An error occurred while getting statistics: ");
      [reflexivity | reflexivity | intros [H _]; discriminate H].
Defined.

End ToolClaims.

(** ** Shares in the reports *)

Module ShareClaims.
Import Py Eff Coll Server Spec EffFacts StrFacts CollFacts CountFacts ListingFacts.

Lemma match_nonempty {A B} (l : list A) (x y : B) :
  l <> [] -> match l with [] => x | _ :: _ => y end = y.
Proof. destruct l; [contradiction | reflexivity]. Qed.

Lemma Forall_True {A} (l : list A) : Forall (fun _ => True) l.
Proof. induction l; constructor; auto. Qed.

(** A loop that adds one line with a share per entry. *)
Lemma share_loop (render : value * nat -> spec_float -> string) (whole : nat)
    (f : string -> value * nat -> py string) (rows : list (value * nat)) acc w tr :
  whole <> 0%nat ->
  Forall (fun vc => overflows vc.2 whole = false) rows ->
  (forall acc vc, f acc vc
                  = (percentage vc.2 whole ≫= fun p => mret (acc +:+ render vc p))) ->
  for_each rows f acc w tr
  = (Return (acc +:+ concat_str ((fun vc => render vc (share vc.2 whole)) <$> rows)),
     tr ++ (division whole <$> rows)).
Proof.
  intros Hw Hrows Hf.
  rewrite (for_each_steps (fun vc => overflows vc.2 whole = false) f
             (fun acc vc => acc +:+ render vc (share vc.2 whole))
             (fun vc => [division whole vc])).
  - now rewrite (foldl_append (fun vc => render vc (share vc.2 whole))), concat_flat.
  - intros acc' vc w' tr' Ho. rewrite Hf, bind_unfold, percentage_ok by assumption.
    reflexivity.
  - exact Hrows.
Qed.

(** No count of a table exceeds the sum of its counts. *)
Lemma count_le_total {K} (d : list (K * nat)) (k : K) (c : nat) :
  (k, c) ∈ d -> (c <= total d)%nat.
Proof.
  induction d as [|[k0 c0] d IH]; [inversion 1|].
  rewrite total_cons. intros [[= -> ->]|Hin]%elem_of_cons; [lia|].
  specialize (IH Hin). lia.
Qed.

(** The rows shown from a table of a single-valued column never overflow
    a share of [whole], when [whole] is at least the number of records
    that have a value. *)
Lemma column_rows_fit (column : string) (data : list record) (whole n : nat) :
  whole <> 0%nat ->
  (length (present column data) <= whole)%nat ->
  Forall (fun vc => overflows vc.2 whole = false)
         (take n (sorted_desc snd (count_column column data))).
Proof.
  intros Hw Hle. apply Forall_take, Forall_forall. intros [v c] Hin.
  rewrite sorted_desc_perm in Hin. apply count_le_total in Hin.
  rewrite count_column_total in Hin. apply no_overflow; [simpl; lia | assumption].
Qed.

Lemma collect_cheque_length (data : list record) (acc : list (value * value)) :
  (length (foldl (fun cheque_data record =>
             let min_cheque := get record "First cheque minimum" in
             let max_cheque := get record "First cheque maximum" in
             if truthy min_cheque && truthy max_cheque
                && negb (value_eqb min_cheque (VStr "N/A"))
                && negb (value_eqb max_cheque (VStr "N/A"))
             then cheque_data ++ [(min_cheque, max_cheque)]
             else cheque_data) acc data)
   <= length acc + length data)%nat.
Proof.
  revert acc. induction data as [|r data IH]; intros acc; simpl; [lia|].
  etransitivity; [apply IH|].
  destruct (_ && _); [rewrite length_app; simpl; lia | lia].
Qed.

Lemma stage_report (data : list record) w tr :
  let q := build_query "dec-2024" (Some ["Stage of investment"]) None None in
  let table := count_column "Stage of investment" data in
  let rows := sorted_desc snd table in
  let whole := length (present "Stage of investment" data) in
  configured w ->
  remote w tr q = Rows data ->
  whole <> 0%nat ->
  analyze_investment_stages w tr
  = (Return ("Investment Stage Analysis:" +:+ nl +:+ nl
             +:+ concat_str (stage_line whole <$> rows)
             +:+ nl +:+ "Total investors analyzed: " +:+ str_of_nat whole
             +:+ nl +:+ "Unique investment stages: " +:+ str_of_nat (length table)),
     (tr ++ [EFetch q]) ++ (division whole <$> rows)).
Proof.
  intros q table rows whole Hw Hq Hne.
  assert (Hdata : data <> []) by (intros ->; now apply Hne).
  assert (Htotal : total table = whole) by apply count_column_total.
  assert (Htable : table <> []) by (intros E; rewrite E in Htotal; now apply Hne).
  unfold analyze_investment_stages, analyze_investment_stages_body. apply guarded_return.
  rewrite bind_unfold, (fetch_rows _ _ _ _ _ _ data) by assumption.
  rewrite (match_nonempty data) by assumption. cbv zeta. fold table.
  rewrite (match_nonempty table) by assumption.
  rewrite Htotal, bind_unfold. fold rows.
  rewrite (share_loop
             (fun vc p => bullet +:+ " " +:+ str vc.1 +:+ ": " +:+ str_of_nat vc.2
                          +:+ " investors (" +:+ format_1f p +:+ "%)" +:+ nl) whole);
    [|assumption| |].
  - unfold mret, py_ret. fold (stage_line whole). now rewrite !append_assoc.
  - subst rows table. rewrite <- (firstn_all (sorted_desc snd _)).
    apply column_rows_fit; [assumption | subst whole; lia].
  - intros acc [stage count]. reflexivity.
Qed.

Lemma top_five_lines (whole : nat) (sorted_counts : list (value * nat)) acc w tr :
  whole <> 0%nat ->
  Forall (fun vc => overflows vc.2 whole = false) (take 5 sorted_counts) ->
  top_five whole sorted_counts acc w tr
  = (Return (acc +:+ concat_str (top_line whole <$> take 5 sorted_counts)),
     tr ++ (division whole <$> take 5 sorted_counts)).
Proof.
  intros Hw Hfit. unfold top_five.
  rewrite (share_loop
             (fun vc p => bullet +:+ " " +:+ str vc.1 +:+ ": " +:+ str_of_nat vc.2
                          +:+ " (" +:+ format_1f p +:+ "%)" +:+ nl) whole);
    [reflexivity | assumption | assumption |].
  intros acc' [v count]. reflexivity.
Qed.

Lemma statistics_report (data : list record) w tr :
  let q := build_query "dec-2024"
             (Some [ "Investor name"; "Investor type"; "Stage of investment";
                     "Countries of investment"; "Global HQ";
                     "First cheque minimum"; "First cheque maximum" ])
             None None in
  let whole := length data in
  let types := top5 (count_column "Investor type" data) in
  let stages := top5 (count_column "Stage of investment" data) in
  let countries := top5 (count_countries data) in
  let cheques := collect_cheque_data data in
  configured w ->
  remote w tr q = Rows data ->
  data <> [] ->
  Forall (fun vc => overflows vc.2 whole = false) countries ->
  get_investor_statistics w tr
  = (Return ("Investor Database Statistics:" +:+ nl +:+ nl
             +:+ "Total Investors: " +:+ str_of_nat whole +:+ nl +:+ nl
             +:+ "Top Investor Types:" +:+ nl
             +:+ concat_str (top_line whole <$> types)
             +:+ nl +:+ "Top Investment Stages:" +:+ nl
             +:+ concat_str (top_line whole <$> stages)
             +:+ nl +:+ "Top Investment Countries:" +:+ nl
             +:+ concat_str (top_line whole <$> countries)
             +:+ cheque_section whole cheques),
     ((((tr ++ [EFetch q]) ++ (division whole <$> types))
       ++ (division whole <$> stages)) ++ (division whole <$> countries))
     ++ cheque_division whole cheques).
Proof.
  intros q whole types stages countries cheques Hw Hq Hdata Hfit.
  assert (Hwhole : whole <> 0%nat) by (subst whole; destruct data; [contradiction | discriminate]).
  assert (Hpresent : forall column, (length (present column data) <= whole)%nat)
    by (intros column; apply length_filter).
  unfold get_investor_statistics, get_investor_statistics_body. apply guarded_return.
  rewrite bind_unfold, (fetch_rows _ _ _ _ _ _ data) by assumption.
  rewrite (match_nonempty data) by assumption. cbv zeta.
  fold whole. fold cheques.
  rewrite bind_unfold, top_five_lines
    by (try assumption; now apply column_rows_fit).
  rewrite bind_unfold, top_five_lines
    by (try assumption; now apply column_rows_fit).
  rewrite bind_unfold, top_five_lines by assumption.
  fold (top5 (count_column "Investor type" data)).
  fold (top5 (count_column "Stage of investment" data)).
  fold (top5 (count_countries data)).
  fold types stages countries.
  unfold cheque_section, cheque_division.
  destruct cheques as [|c cheques'] eqn:Ec.
  - unfold mret, py_ret. now rewrite !append_assoc, append_nil_r, app_nil_r.
  - rewrite bind_unfold, percentage_ok; [| assumption |].
    + unfold mret, py_ret. now rewrite !append_assoc.
    + apply no_overflow; [|assumption].
      rewrite <- Ec. subst cheques whole. unfold collect_cheque_data.
      etransitivity; [apply collect_cheque_length | simpl; lia].
Qed.

(** C1 (amended). Every frequency table passes over the records whose
    value is missing or empty.  The table of a single-valued column (type,
    stage) holds exactly the non-empty values that occur, each with the
    number of its occurrences, so its counts add up to the number of
    records that have a value; the country table counts one for every
    comma-separated part of the countries values.  The stage distribution
    divides every count by the number of records that have a stage, the
    sum of its counts.  The statistics report divides every count, for
    types, stages and countries alike, by the number of all records, as
    long as no country count is so large that its quotient overflows a
    float.  Every percentage is the binary64 quotient times 100, printed
    with one decimal. *)
Theorem shares_of_reports (data : list record) (w : world) (tr : list event) :
  (forall column v,
      dict_get (count_column column data) v
      = if truthy v && (0 <? occurrences column v data)%nat
        then Some (occurrences column v data) else None)
  /\ (forall column,
        NoDup (count_column column data).*1
        /\ total (count_column column data) = length (present column data))
  /\ total (count_countries data)
     = sum_list (country_tokens <$> present "Countries of investment" data)
  /\ (configured w ->
      remote w tr stage_query = Rows data ->
      present "Stage of investment" data <> [] ->
      analyze_investment_stages w tr
      = (Return (stage_report_text data),
         (tr ++ [EFetch stage_query]) ++ stage_divisions data))
  /\ (configured w ->
      remote w tr statistics_query = Rows data ->
      data <> [] ->
      Forall (fun vc => overflows vc.2 (length data) = false)
             (top5 (count_countries data)) ->
      get_investor_statistics w tr
      = (Return (statistics_report_text data),
         (tr ++ [EFetch statistics_query]) ++ statistics_divisions data)).
Proof.
  split; [intros; apply count_column_get|].
  split; [intros; split; [apply count_column_NoDup | apply count_column_total]|].
  split; [apply count_countries_total|].
  split.
  - intros Hw Hq Hne. apply stage_report; try assumption.
    destruct (present "Stage of investment" data); [contradiction | discriminate].
  - intros Hw Hq Hne Hfit.
    pose proof (statistics_report data w tr Hw Hq Hne Hfit) as H. cbv zeta in H.
    rewrite H. unfold statistics_report_text, statistics_divisions. cbv zeta.
    now rewrite <- !app_assoc.
Qed.

Lemma shares_of_reports_witness :
  let data : list record :=
    [ {[ "Stage of investment" := VStr "Seed" ]}; {[ "Stage of investment" := VStr "" ]};
      {[ "Stage of investment" := VStr "Seed" ]}; {[ "Stage of investment" := VStr "Growth" ]};
      {[ "Countries of investment" := VStr "USA, UK" ]} ] in
  let w := World (Some "https://db") (Some "key") (fun _ _ => Rows data) in
  (analyze_investment_stages w []).2
  = [EFetch stage_query; EDiv 2 3; EDiv 1 3]
  /\ (get_investor_statistics w []).2
     = [EFetch statistics_query; EDiv 2 5; EDiv 1 5; EDiv 1 5; EDiv 1 5].
Proof.
  intros data w. split.
  - rewrite (proj1 (proj2 (proj2 (proj2 (shares_of_reports data w [])))));
      [vm_compute; reflexivity | split; reflexivity | reflexivity |].
    intros E. apply (f_equal length) in E. vm_compute in E. discriminate E.
  - rewrite (proj2 (proj2 (proj2 (proj2 (shares_of_reports data w [])))));
      [vm_compute; reflexivity | split; reflexivity | reflexivity | discriminate
       | vm_compute; repeat constructor].
Defined.

(** Three records, two of type "VC" with stage "Seed" and one "Angel
    network": the statistics rank "VC" first with 66.7%, then "Angel
    network" with 33.3%. *)
Example statistics_of_three_records :
  let a : record := {[ "Investor type" := VStr "VC"; "Stage of investment" := VStr "Seed" ]} in
  let c : record := {[ "Investor type" := VStr "Angel network" ]} in
  top_line 3 <$> top5 (count_column "Investor type" [a; a; c])
  = [ bullet +:+ " VC: 2 (66.7%)" +:+ nl; bullet +:+ " Angel network: 1 (33.3%)" +:+ nl ].
Proof. vm_compute. reflexivity. Qed.

(** The percentages are binary64 numbers: 23 of 80 is printed as 28.7,
    where the exact quotient 28.75 would be printed as 28.8. *)
Example share_of_23_in_80 :
  format_1f (share 23 80) = "28.7" /\ decimal_1f (23 * 100 # 80) = "28.8".
Proof. split; vm_compute; reflexivity. Qed.

(** C1, as stated, fails for the statistics report: with one record of
    type "VC" and one without a type, the share of "VC" is taken of the
    two records, not of the one that has a type. *)
Lemma statistics_share_of_all_records :
  let data : list record := [ {[ "Investor type" := VStr "VC" ]}; ∅ ] in
  let w := World (Some "https://db") (Some "key") (fun _ _ => Rows data) in
  total (count_column "Investor type" data) = 1%nat
  /\ (get_investor_statistics w []).2 = [EFetch statistics_query; EDiv 1 2]
  /\ (get_investor_statistics w []).2
     <> [EFetch statistics_query; EDiv 1 (total (count_column "Investor type" data))]
  /\ format_1f (share 1 2) = "50.0" /\ format_1f (share 1 1) = "100.0".
Proof.
  intros data w.
  assert (H1 : total (count_column "Investor type" data) = 1%nat) by (vm_compute; reflexivity).
  assert (H2 : (get_investor_statistics w []).2 = [EFetch statistics_query; EDiv 1 2])
    by (vm_compute; reflexivity).
  split; [exact H1|]. split; [exact H2|]. split.
  - rewrite H1, H2. intros [=].
  - split; vm_compute; reflexivity.
Qed.

End ShareClaims.

(** ** What the listing tools display *)

Module DisplayClaims.
Import Py Eff Coll Server Spec Notions.
Import EffFacts StrFacts CollFacts CountFacts Claims ListingFacts ToolClaims.

Lemma show_investors_null (header : string) (data : list record) w tr :
  Exists (fun r => ~ has_thesis_text r) (take 10 data) ->
  show_investors header data w tr = (Raise (TypeError no_len), tr).
Proof.
  intros Hex. unfold show_investors. rewrite bind_unfold.
  rewrite (for_each_raises show_investor (TypeError no_len)
             (fun ir => ~ has_thesis_text ir.2)); [reflexivity | | | ].
  - intros acc [i investor] w' tr' Hbad. unfold show_investor.
    rewrite bind_unfold, thesis_lines_null by assumption. reflexivity.
  - intros acc [i investor] w' tr'. unfold show_investor. rewrite bind_unfold.
    unfold thesis_lines, thesis_text.
    destruct (get_or investor "Investment thesis" "N/A").
    + exists acc. right. reflexivity.
    + eexists. left. reflexivity.
  - exact (enumerate_Exists (fun r => ~ has_thesis_text r) _ _ Hex).
Qed.

Lemma text_or_null {A} (thesis_of : A -> record) (l : list A) :
  Forall (fun a => has_thesis_text (thesis_of a)) l
  \/ Exists (fun a => ~ has_thesis_text (thesis_of a)) l.
Proof.
  induction l as [|a l [IH|IH]].
  - left. constructor.
  - destruct (decide (get_or (thesis_of a) "Investment thesis" "N/A" = VNone)) as [E|E].
    + right. apply Exists_cons_hd. intros H. now apply H.
    + left. now constructor.
  - right. now apply Exists_cons_tl.
Qed.

(** The display loop of the listing tools gives the listing, or raises on
    a null thesis among the records it shows. *)
Lemma show_investors_outcome (header : string) (data : list record) w tr :
  show_investors header data w tr
  = (if decide (Forall has_thesis_text (take 10 data))
     then Return (listing header data)
     else Raise (TypeError no_len), tr).
Proof.
  destruct (decide (Forall has_thesis_text (take 10 data))) as [Hall|Hnot].
  - now apply show_investors_listing.
  - apply show_investors_null.
    destruct (text_or_null id (take 10 data)); [contradiction | assumption].
Qed.

Lemma cheque_filter_filter (min_amount max_amount : option string) (data : list record) :
  cheque_filter min_amount max_amount data
  = filter (fun r => cheque_keeps min_amount max_amount r = true) data.
Proof. unfold cheque_filter. now rewrite cheque_filter_from. Qed.

(** C2 (amended). The cheque-size tool applies the cheque-range filter to
    all rows of the table.  The filter keeps, in order, exactly the rows
    whose two cheque fields are present and non-empty and which neither
    bound rejects: a non-empty [min_amount] rejects a row iff its
    lower-cased minimum cheque is lexicographically less than the
    lower-cased bound, a non-empty [max_amount] iff its lower-cased
    maximum cheque is lexicographically greater.  By this rule a minimum
    cheque of "9M" is not rejected by the bound "10M".  The tool lists
    the rows that are kept, cut to the limit. *)
Theorem cheque_filter_rule (min_amount max_amount : option string) (data : list record) :
  (forall r, cheque_keeps min_amount max_amount r = true
             <-> has_cheques r /\ ~ min_rejects min_amount r
                 /\ ~ max_rejects max_amount r)
  /\ cheque_filter min_amount max_amount data
     = filter (fun r => cheque_keeps min_amount max_amount r = true) data
  /\ (forall r, get r "First cheque minimum" = VStr "9M" ->
                ~ min_rejects (Some "10M") r)
  /\ (forall limit w tr,
        configured w ->
        remote w tr scan_query = Rows data ->
        data <> [] ->
        find_investors_by_cheque_size min_amount max_amount limit w tr
        = (Return
             (match cheque_filter min_amount max_amount data with
              | [] => no_match_message
                        (add_desc max_amount "maximum" (add_desc min_amount "minimum" []))
              | kept =>
                  let shown := apply_limit limit kept in
                  if decide (Forall has_thesis_text (take 10 shown))
                  then listing (found_header (length shown)) shown
                  else "An error occurred while searching by cheque size: " +:+ no_len
              end),
           tr ++ [EFetch scan_query])).
Proof.
  split; [intros r; apply cheque_keeps_iff|].
  split; [apply cheque_filter_filter|].
  split.
  - intros r Hr. rewrite min_rejects_iff, Hr. intros [_ H]. vm_compute in H. discriminate.
  - intros limit w tr Hw Hq Hne.
    unfold find_investors_by_cheque_size, guarded, try_except,
      find_investors_by_cheque_size_body.
    rewrite bind_unfold, (fetch_rows _ _ _ _ _ _ data) by assumption.
    destruct data as [|r data]; [contradiction|]. cbv zeta.
    destruct (cheque_filter min_amount max_amount (r :: data)) as [|k kept]; [reflexivity|].
    fold (found_header (length (apply_limit limit (k :: kept)))).
    rewrite show_investors_outcome.
    destruct (decide (Forall has_thesis_text (take 10 (apply_limit limit (k :: kept)))));
      reflexivity.
Qed.

Lemma cheque_filter_rule_witness :
  let r : record :=
    {[ "Investor name" := VStr "Acme"; "Investment thesis" := VStr "AI";
       "First cheque minimum" := VStr "9M"; "First cheque maximum" := VStr "9M" ]} in
  let w := World (Some "https://db") (Some "key") (fun _ _ => Rows [r]) in
  cheque_keeps (Some "10M") (Some "9m") r = true
  /\ (find_investors_by_cheque_size (Some "10M") (Some "9m") None w []).1
     = Return (listing (found_header 1) [r]).
Proof.
  intros r w.
  destruct (cheque_filter_rule (Some "10M") (Some "9m") [r]) as (Hkeeps & _ & H9 & Htool).
  assert (Hk : cheque_keeps (Some "10M") (Some "9m") r = true).
  { apply Hkeeps. split; [split; reflexivity|]. split.
    - apply H9. reflexivity.
    - intros (a & [= <-] & _ & Hlt). apply str_lt_spec in Hlt.
      vm_compute in Hlt. discriminate Hlt. }
  split; [exact Hk|].
  rewrite (Htool None w []); [|split; reflexivity | reflexivity | discriminate].
  cbn [fst]. unfold cheque_filter. cbn [foldl]. rewrite Hk. cbn [app apply_limit].
  rewrite decide_True; [reflexivity|].
  repeat constructor. discriminate.
Defined.

Lemma show_similar_text acc (entry : nat * scored) w tr :
  has_thesis_text (sc_investor entry.2) ->
  show_similar acc entry w tr
  = (Return (acc +:+ similar_block entry.1 entry.2), tr ++ []).
Proof.
  destruct entry as [i item]. intros H. unfold show_similar.
  rewrite bind_unfold, thesis_lines_text by assumption.
  rewrite app_nil_r. unfold mret, py_ret, similar_block. simpl fst. simpl snd.
  f_equal. f_equal. now rewrite !append_assoc.
Qed.

(** The display loop of the similarity tool gives one block for each
    candidate, or raises on a null thesis among them. *)
Lemma show_similar_outcome (header : string) (items : list scored) w tr :
  for_each (enumerate 1 items) show_similar header w tr
  = (if decide (Forall (fun c => has_thesis_text (sc_investor c)) items)
     then Return (header +:+ concat_str ((fun ix => similar_block ix.1 ix.2)
                                          <$> enumerate 1 items))
     else Raise (TypeError no_len), tr).
Proof.
  destruct (decide (Forall (fun c => has_thesis_text (sc_investor c)) items)) as [Hall|Hnot].
  - rewrite (for_each_steps (fun ix => has_thesis_text (sc_investor ix.2)) show_similar
               (fun acc ix => acc +:+ similar_block ix.1 ix.2) (fun _ => []));
      [|intros; now apply show_similar_text
       |exact (enumerate_Forall (fun c => has_thesis_text (sc_investor c)) _ _ Hall)].
    now rewrite concat_silent, app_nil_r, foldl_append.
  - apply (for_each_raises show_similar (TypeError no_len)
             (fun ix => ~ has_thesis_text (sc_investor ix.2))).
    + intros acc [i item] w' tr' Hbad. unfold show_similar.
      rewrite bind_unfold, thesis_lines_null by assumption. reflexivity.
    + intros acc [i item] w' tr'. unfold show_similar. rewrite bind_unfold.
      unfold thesis_lines, thesis_text.
      destruct (get_or (sc_investor item) "Investment thesis" "N/A").
      * exists acc. right. reflexivity.
      * eexists. left. reflexivity.
    + apply (enumerate_Exists (fun c => ~ has_thesis_text (sc_investor c))).
      destruct (text_or_null sc_investor items); [contradiction | assumption].
Qed.

(** C3. A candidate's score is 3 for an equal investor type, plus 2 for
    an equal stage, plus 2 for countries equal as whole strings, plus 1
    when its HQ string contains a whitespace-delimited word of the
    target's HQ.  Candidates named like the target or scoring 0 are left
    out; the others are ranked by descending score, ties in encounter
    order.  A candidate equal in type, stage and countries with no HQ
    word in common scores 7, with those three labels in that order.  The
    similarity tool scores the rows of the table against the record it
    found under the name, and lists this ranking, cut to the limit, each
    candidate with its score and its labels. *)
Theorem similarity_ranking (investor_name : string) (target : record) (data : list record) :
  let ranked := sorted_desc sc_score (score_all investor_name target data) in
  (forall r, score_candidate target r = (similarity target r, factor_labels target r))
  /\ score_all investor_name target data = candidates investor_name target data
  /\ ranked ≡ₚ candidates investor_name target data
  /\ StronglySorted (descending sc_score) ranked
  /\ (forall k, filter (fun c => sc_score c = k) ranked
                = filter (fun c => sc_score c = k) (candidates investor_name target data))
  /\ (forall r,
        same_field "Investor type" target r = true ->
        same_field "Stage of investment" target r = true ->
        same_field "Countries of investment" target r = true ->
        hq_overlap target r = false ->
        score_candidate target r
        = (7%nat, ["same investor type"; "same investment stage";
                   "same investment countries"]))
  /\ (forall limit w tr others,
        configured w ->
        remote w tr (lookup_query investor_name) = Rows (target :: others) ->
        remote w (tr ++ [EFetch (lookup_query investor_name)]) scan_query = Rows data ->
        data <> [] ->
        find_similar_investors investor_name limit w tr
        = (Return
             (match ranked with
              | [] => "No similar investors found for '" +:+ investor_name +:+ "'."
              | _ =>
                  let shown := apply_limit limit ranked in
                  if decide (Forall (fun c => has_thesis_text (sc_investor c))
                               (take 10 shown))
                  then similar_listing investor_name shown
                  else "An error occurred while finding similar investors: " +:+ no_len
              end),
           tr ++ [EFetch (lookup_query investor_name); EFetch scan_query])).
Proof.
  intros ranked.
  assert (Hall : score_all investor_name target data = candidates investor_name target data)
    by (unfold score_all; now rewrite score_all_from).
  split; [apply score_candidate_spec|]. split; [exact Hall|].
  split; [subst ranked; rewrite Hall; apply sorted_desc_perm|].
  split; [apply sorted_desc_sorted|].
  split; [intros k; subst ranked; rewrite Hall; apply sorted_desc_stable|].
  split.
  - intros r Ht Hs Hc Hq. rewrite score_candidate_spec.
    unfold similarity, factor_labels. now rewrite Ht, Hs, Hc, Hq.
  - intros limit w tr others Hw Hfirst Hscan Hne.
    unfold find_similar_investors, guarded, try_except, find_similar_investors_body.
    fold (lookup_query investor_name).
    rewrite bind_unfold.
    pose proof (fetch_rows "dec-2024"
                  (Some [ "Investor name"; "Investor type"; "Stage of investment";
                          "Countries of investment"; "Global HQ" ])
                  (Some [("Investor name", VStr investor_name)]) (Some 1%Z)
                  w tr (target :: others) Hw Hfirst) as E1.
    fold (lookup_query investor_name) in E1. rewrite E1. clear E1.
    rewrite bind_unfold.
    pose proof (fetch_rows "dec-2024" (Some all_columns) None None
                  w (tr ++ [EFetch (lookup_query investor_name)]) data Hw Hscan) as E2.
    fold scan_query in E2. rewrite E2. clear E2.
    rewrite <- app_assoc. cbn [app].
    destruct data as [|r data]; [contradiction|]. cbv zeta.
    fold ranked. destruct ranked as [|c ranked']; [reflexivity|].
    rewrite bind_unfold, show_similar_outcome.
    destruct (decide (Forall (fun c => has_thesis_text (sc_investor c))
                        (take 10 (apply_limit limit (c :: ranked'))))); [|reflexivity].
    unfold similar_listing, similar_more_line.
    destruct (10 <? length (apply_limit limit (c :: ranked')))%nat.
    + unfold mret, py_ret. cbn [fst snd]. now rewrite !append_assoc.
    + unfold mret, py_ret. cbn [fst snd]. now rewrite !append_assoc, append_nil_r.
Qed.

Lemma similarity_ranking_witness :
  let target : record :=
    {[ "Investor name" := VStr "A"; "Investor type" := VStr "VC";
       "Stage of investment" := VStr "Seed";
       "Countries of investment" := VStr "USA, UK"; "Global HQ" := VStr "San Francisco" ]} in
  let r : record :=
    {[ "Investor name" := VStr "B"; "Investor type" := VStr "VC";
       "Stage of investment" := VStr "Seed";
       "Countries of investment" := VStr "USA, UK"; "Global HQ" := VStr "New York";
       "Investment thesis" := VStr "AI" ]} in
  let w := World (Some "https://db") (Some "key")
             (fun tr _ => match tr with [] => Rows [target] | _ => Rows [target; r] end) in
  score_candidate target r
  = (7%nat, ["same investor type"; "same investment stage"; "same investment countries"])
  /\ (find_similar_investors "A" None w []).1
     = Return (similar_listing "A"
                 [Scored r 7 ["same investor type"; "same investment stage";
                              "same investment countries"]]).
Proof.
  intros target r w.
  destruct (similarity_ranking "A" target [target; r]) as (_ & _ & _ & _ & _ & H7 & Htool).
  assert (E : score_candidate target r
              = (7%nat, ["same investor type"; "same investment stage";
                         "same investment countries"]))
    by (apply H7; reflexivity).
  split; [exact E|].
  rewrite (Htool None w [] []); [|split; reflexivity | reflexivity | reflexivity | discriminate].
  cbn [fst]. unfold score_all. cbn [foldl].
  change (value_eqb (get target "Investor name") (VStr "A")) with true.
  change (value_eqb (get r "Investor name") (VStr "A")) with false.
  cbv iota. rewrite E. cbn [Nat.ltb Nat.leb app sorted_desc].
  reflexivity.
Defined.

(** C6. A thesis of length [L] is shown unchanged when [L <= 100], and as
    its first 100 characters followed by three dots when [L > 100]; the
    shown text has length [min L 100], plus 3 exactly when [L > 100].
    This is the text the listing prints after "Thesis: " in the block of
    a record, and the listing tool returns these blocks. *)
Theorem thesis_truncation (thesis : string) :
  let L := String.length thesis in
  (forall w tr, thesis_text (VStr thesis) w tr = (Return (truncate_thesis thesis), tr))
  /\ ((L <= 100)%nat -> truncate_thesis thesis = thesis)
  /\ ((100 < L)%nat ->
      exists first rest,
        thesis = first +:+ rest /\ String.length first = 100%nat
        /\ truncate_thesis thesis = first +:+ "...")
  /\ String.length (truncate_thesis thesis)
     = (Nat.min L 100 + (if (100 <? L)%nat then 3 else 0))%nat
  /\ (forall investor,
        get_or investor "Investment thesis" "N/A" = VStr thesis ->
        (forall w tr,
           thesis_lines investor w tr
           = (Return ("   Thesis: " +:+ truncate_thesis thesis +:+ nl
                      +:+ repeat_str "-" 80 +:+ nl +:+ nl), tr))
        /\ (forall i acc w tr,
              show_investor acc (i, investor) w tr
              = (Return (acc +:+ str_of_nat i +:+ ". "
                         +:+ str (get_or investor "Investor name" "N/A") +:+ nl
                         +:+ detail_lines investor
                         +:+ "   Thesis: " +:+ truncate_thesis thesis +:+ nl
                         +:+ repeat_str "-" 80 +:+ nl +:+ nl), tr))
        /\ (forall limit w tr,
              configured w ->
              remote w tr (build_query "dec-2024" (Some all_columns) None limit)
              = Rows [investor] ->
              get_investor_data limit w tr
              = (Return ("Found 1 investor records:" +:+ nl +:+ nl
                         +:+ "1. " +:+ str (get_or investor "Investor name" "N/A") +:+ nl
                         +:+ detail_lines investor
                         +:+ "   Thesis: " +:+ truncate_thesis thesis +:+ nl
                         +:+ repeat_str "-" 80 +:+ nl +:+ nl),
                 tr ++ [EFetch (build_query "dec-2024" (Some all_columns) None limit)])))
  /\ (forall limit data w tr,
        configured w ->
        remote w tr (build_query "dec-2024" (Some all_columns) None limit) = Rows data ->
        data <> [] ->
        Forall has_thesis_text (take 10 data) ->
        get_investor_data limit w tr
        = (Return
             (("Found " +:+ str_of_nat (length data) +:+ " investor records:" +:+ nl +:+ nl)
              +:+ concat_str
                    ((fun ir =>
                        str_of_nat ir.1 +:+ ". "
                        +:+ str (get_or ir.2 "Investor name" "N/A") +:+ nl
                        +:+ detail_lines ir.2
                        +:+ "   Thesis: "
                        +:+ truncate_thesis (str (get_or ir.2 "Investment thesis" "N/A"))
                        +:+ nl +:+ repeat_str "-" 80 +:+ nl +:+ nl)
                     <$> enumerate 1 (take 10 data))
              +:+ more_line (length data)),
           tr ++ [EFetch (build_query "dec-2024" (Some all_columns) None limit)])).
Proof.
  intros L. split; [reflexivity|].
  split; [|split; [|split; [|split]]].
  - unfold truncate_thesis. fold L. intros H. apply Nat.ltb_ge in H. now rewrite H.
  - unfold truncate_thesis. fold L.
    intros H. destruct (slice_to_prefix 100 thesis) as [rest Hrest].
    exists (slice_to 100 thesis), rest. split; [exact Hrest|]. split.
    + rewrite length_slice_to. fold L. lia.
    + apply Nat.ltb_lt in H. now rewrite H.
  - unfold truncate_thesis. fold L. destruct (Nat.ltb_spec 100 L) as [H|H].
    + rewrite length_append, length_slice_to.
      change (String.length "...") with 3%nat. subst L. lia.
    + subst L. lia.
  - intros investor Hth.
    assert (Htext : has_thesis_text investor)
      by (unfold has_thesis_text; rewrite Hth; discriminate).
    split; [|split].
    + intros w tr. rewrite thesis_lines_text, Hth by assumption. reflexivity.
    + intros i acc w tr.
      rewrite (show_investor_text acc (i, investor)) by exact Htext.
      rewrite app_nil_r. unfold investor_block. cbn [fst snd]. rewrite Hth.
      reflexivity.
    + intros limit w tr Hw Hq.
      rewrite (get_investor_data_listing limit [investor]);
        [|assumption | assumption | discriminate | repeat constructor; exact Htext].
      unfold listing, investor_block, more_line. cbn [length take enumerate fmap list_fmap
        concat_str foldr fst snd Nat.ltb Nat.leb]. rewrite Hth.
      change (str_of_nat 1) with "1".
      rewrite !append_nil_r. rewrite !append_assoc. reflexivity.
  - intros limit data w tr Hw Hq Hne Hth.
    now rewrite (get_investor_data_listing limit data).
Qed.

Lemma thesis_truncation_witness :
  let r : record :=
    {[ "Investor name" := VStr "Acme"; "Investment thesis" := VStr (repeat_str "x" 120) ]} in
  let w := World (Some "https://db") (Some "key") (fun _ _ => Rows [r]) in
  truncate_thesis "AI" = "AI"
  /\ truncate_thesis (repeat_str "x" 120) = repeat_str "x" 100 +:+ "..."
  /\ (get_investor_data None w []).1
     = Return ("Found 1 investor records:" +:+ nl +:+ nl
               +:+ "1. Acme" +:+ nl
               +:+ detail_lines r
               +:+ "   Thesis: " +:+ repeat_str "x" 100 +:+ "..." +:+ nl
               +:+ repeat_str "-" 80 +:+ nl +:+ nl).
Proof.
  intros r w. split; [|split].
  - apply (thesis_truncation "AI"). vm_compute. lia.
  - reflexivity.
  - destruct (thesis_truncation (repeat_str "x" 120)) as (_ & _ & _ & _ & Hblock & _).
    destruct (Hblock r) as (_ & _ & Htool); [reflexivity|].
    rewrite (Htool None w []); [reflexivity | split; reflexivity | reflexivity].
Defined.

End DisplayClaims.


(** ** The fetch, the aliases and the limit *)

Module FetchFacts.
Import Py Eff Coll Server Spec Notions EffFacts StrFacts CollFacts.

(** X1. The fetch raises [ValueError] exactly when a credential is
    missing or empty, and then before any query: the trace is untouched
    and the message is not wrapped in the fetch-error phrase. *)
Theorem fetch_needs_credentials table cols filters (limit : option Z) w tr :
  ~ configured w
  <-> fetch_data_from_supabase table cols filters limit w tr
      = (Raise (ValueError credentials_message), tr).
Proof.
  split; [apply fetch_unconfigured|].
  intros H Hw.
  destruct (remote w tr (build_query table cols filters limit)) as [data|msg] eqn:E.
  - rewrite (fetch_rows _ _ _ _ _ _ data) in H by assumption. discriminate.
  - rewrite (fetch_failure _ _ _ _ _ _ msg) in H by assumption. discriminate.
Qed.

(** X2. With credentials the fetch submits exactly one query; the rows
    come back as they are, and any failure of the client becomes an
    [Exception] whose text is the fetch-error phrase and the client's
    message. *)
Theorem fetch_one_query table cols filters (limit : option Z) w tr :
  configured w ->
  let q := build_query table cols filters limit in
  let result := fetch_data_from_supabase table cols filters limit w tr in
  result.2 = tr ++ [EFetch q]
  /\ match remote w tr q with
     | Rows data => result.1 = Return data
     | Failure msg =>
         result.1 = Raise (Exception ("Error fetching data from Supabase: " +:+ msg))
     end.
Proof.
  intros Hw q result. subst result.
  destruct (remote w tr q) as [data|msg] eqn:E.
  - subst q. rewrite (fetch_rows _ _ _ _ _ _ data) by assumption. now split.
  - subst q. rewrite (fetch_failure _ _ _ _ _ _ msg) by assumption. now split.
Qed.

Lemma fetch_one_query_witness :
  let w := World (Some "https://db") (Some "key") (fun _ _ => Failure "timed out") in
  (fetch_data_from_supabase "dec-2024" None None None w []).2
  = [EFetch (build_query "dec-2024" None None None)].
Proof.
  intros w.
  apply (fetch_one_query "dec-2024" None None None w []). split; reflexivity.
Defined.

Lemma mapped_type_canonical (k c : string) :
  investor_type_mapping !! k = Some c -> normalize_investor_type c = c.
Proof.
  unfold investor_type_mapping. intros H.
  apply elem_of_list_to_map_2 in H.
  repeat (apply elem_of_cons in H as [[= -> ->]|H]; [vm_compute; reflexivity|]).
  inversion H.
Qed.

Lemma mapped_country_canonical (k c : string) :
  country_mapping !! k = Some c -> normalize_country c = c.
Proof.
  unfold country_mapping. intros H.
  apply elem_of_list_to_map_2 in H.
  repeat (apply elem_of_cons in H as [[= -> ->]|H]; [vm_compute; reflexivity|]).
  inversion H.
Qed.

(** X3. Alias normalisation of investor types and countries: a text the
    table does not know passes unchanged; a known alias gives the same
    canonical value whatever its case; and normalising twice is
    normalising once, as every canonical value maps to itself. *)
Theorem alias_normalisation (a b : string) :
  (investor_type_mapping !! lower a = None -> normalize_investor_type a = a)
  /\ (country_mapping !! lower a = None -> normalize_country a = a)
  /\ (lower a = lower b -> is_Some (investor_type_mapping !! lower a) ->
      normalize_investor_type a = normalize_investor_type b)
  /\ (lower a = lower b -> is_Some (country_mapping !! lower a) ->
      normalize_country a = normalize_country b)
  /\ normalize_investor_type (normalize_investor_type a) = normalize_investor_type a
  /\ normalize_country (normalize_country a) = normalize_country a.
Proof.
  unfold normalize_investor_type at 1 2 3, normalize_country at 1 2 3.
  repeat split.
  - now intros ->.
  - now intros ->.
  - intros E [c Hc]. rewrite <- E, Hc. reflexivity.
  - intros E [c Hc]. rewrite <- E, Hc. reflexivity.
  - unfold normalize_investor_type at 2 3.
    destruct (investor_type_mapping !! lower a) as [c|] eqn:E; simpl.
    + now apply mapped_type_canonical with (lower a).
    + unfold normalize_investor_type. now rewrite E.
  - unfold normalize_country at 2 3.
    destruct (country_mapping !! lower a) as [c|] eqn:E; simpl.
    + now apply mapped_country_canonical with (lower a).
    + unfold normalize_country. now rewrite E.
Qed.

Lemma alias_normalisation_witness :
  normalize_investor_type "Venture Capital" = normalize_investor_type "VENTURE capital"
  /\ normalize_country "Atlantis" = "Atlantis".
Proof.
  split.
  - destruct (alias_normalisation "Venture Capital" "VENTURE capital") as (_ & _ & H & _).
    apply H; [reflexivity | vm_compute; eexists; reflexivity].
  - destruct (alias_normalisation "Atlantis" "") as (_ & H & _).
    apply H. vm_compute. reflexivity.
Defined.

Lemma add_filter_given (arg : option string) key f filters :
  add_filter arg key f filters
  = if given arg then dict_set filters key (VStr (f (default "" arg))) else filters.
Proof. destruct arg as [a|]; [|reflexivity]. simpl. now destruct (negb (a =? "")). Qed.

Lemma filter_entry_given (arg : option string) key f :
  filter_entry arg key f = if given arg then [(key, VStr (f (default "" arg)))] else [].
Proof. destruct arg as [a|]; [|reflexivity]. simpl. now destruct (negb (a =? "")). Qed.

Ltac no_such_name :=
  let H := fresh in
  intros H; repeat (apply elem_of_cons in H as [H|H]; [discriminate H|]); inversion H.

Ltac known_column := unfold all_columns; solve [repeat first [left | right]].

(** X4. The filter map of the search has one entry for each criterion
    that is given and non-empty, in the fixed order type, stage, country,
    HQ: type and country normalised, stage and HQ as given.  So its keys
    are distinct columns of the table, and when no criterion is given the
    query carries no filter at all. *)
Theorem search_filter_map (investor_type stage country hq_location : option string)
    (limit : option Z) :
  let filters := search_filters investor_type stage country hq_location in
  filters
  = filter_entry investor_type "Investor type" normalize_investor_type
    ++ filter_entry stage "Stage of investment" id
    ++ filter_entry country "Countries of investment" normalize_country
    ++ filter_entry hq_location "Global HQ" id
  /\ NoDup filters.*1
  /\ filters.*1 ⊆ all_columns
  /\ (given investor_type = false -> given stage = false -> given country = false ->
      given hq_location = false ->
      q_eq (build_query "dec-2024" (Some all_columns) (Some filters) limit) = []).
Proof.
  intros filters. subst filters. unfold search_filters.
  rewrite !add_filter_given, !filter_entry_given.
  fold normalize_investor_type normalize_country.
  destruct (given investor_type), (given stage), (given country), (given hq_location);
    (split; [reflexivity|]);
    (split; [cbn; repeat (constructor; [no_such_name|]); constructor|]);
    (split; [cbn; intros x Hx;
             repeat (apply elem_of_cons in Hx as [->|Hx]; [known_column|]);
             inversion Hx|]);
    intros; try discriminate; reflexivity.
Qed.

Lemma search_filter_map_witness :
  q_eq (build_query "dec-2024" (Some all_columns)
          (Some (search_filters None (Some "") None None)) (Some 5%Z)) = [].
Proof.
  apply (search_filter_map None (Some "") None None (Some 5%Z)); reflexivity.
Defined.

(** X5. Cutting a list to a limit keeps a prefix of it: all of it for no
    limit or 0, the first [n] entries for a positive [n], and all but the
    last [k] entries for a negative limit [-k]. *)
Theorem limit_keeps_prefix {A} (limit : option Z) (xs : list A) :
  apply_limit limit xs `prefix_of` xs
  /\ length (apply_limit limit xs)
     = match limit with
       | None => length xs
       | Some n =>
           if (n =? 0)%Z then length xs
           else if (0 <? n)%Z then Nat.min (Z.to_nat n) (length xs)
           else (length xs - Z.to_nat (- n))%nat
       end.
Proof.
  unfold apply_limit, take_to, given_int.
  destruct limit as [n|]; [|split; reflexivity].
  destruct (Z.eqb_spec n 0) as [->|Hn]; simpl; [split; reflexivity|].
  destruct (Z.leb_spec 0 n), (Z.ltb_spec 0 n); try lia.
  - split; [apply prefix_take | apply length_take].
  - split; [apply prefix_take|]. rewrite length_take. lia.
Qed.

End FetchFacts.


(** ** Search and cheque-size listings *)

Module ListingMore.
Import Py Eff Coll Server Spec Notions.
Import EffFacts StrFacts CollFacts ListingFacts Claims DisplayClaims.

(** X6. When the search finds rows, it lists them all under a header
    with their number: the limit goes to the query only and the rows are
    not cut again.  If the thesis of one of the first ten rows is null,
    the answer is the error text of the search instead. *)
Theorem search_lists_rows (investor_type stage country hq_location : option string)
    (limit : option Z) (data : list record) w tr :
  let q := build_query "dec-2024" (Some all_columns)
             (Some (search_filters investor_type stage country hq_location)) limit in
  configured w ->
  remote w tr q = Rows data ->
  data <> [] ->
  search_investors_by_criteria investor_type stage country hq_location limit w tr
  = (Return
       (if decide (Forall has_thesis_text (take 10 data))
        then listing (found_header (length data)) data
        else "An error occurred while searching investors: " +:+ no_len),
     tr ++ [EFetch q]).
Proof.
  intros q Hw Hq Hne. unfold search_investors_by_criteria.
  destruct (decide (Forall has_thesis_text (take 10 data))) as [Hall|Hnot].
  - apply guarded_return. unfold search_investors_by_criteria_body.
    rewrite bind_unfold, (fetch_rows _ _ _ _ _ _ data) by assumption.
    destruct data as [|r data]; [contradiction|].
    now apply show_investors_listing.
  - apply (guarded_raise _ _ _ _ (TypeError no_len)).
    unfold search_investors_by_criteria_body.
    rewrite bind_unfold, (fetch_rows _ _ _ _ _ _ data) by assumption.
    destruct data as [|r data]; [contradiction|].
    apply show_investors_null.
    destruct (text_or_null id (take 10 (r :: data))); [contradiction | assumption].
Qed.

Lemma search_lists_rows_witness :
  let r : record := {[ "Investor name" := VStr "Acme"; "Investment thesis" := VStr "AI" ]} in
  let w := World (Some "https://db") (Some "key") (fun _ _ => Rows [r; r]) in
  (search_investors_by_criteria (Some "vc") None None None (Some 1%Z) w []).1
  = Return (listing (found_header 2) [r; r]).
Proof.
  intros r w.
  rewrite (search_lists_rows (Some "vc") None None None (Some 1%Z) [r; r] w []);
    [ | split; reflexivity | reflexivity | discriminate ].
  cbn [fst]. rewrite decide_True; [reflexivity|].
  repeat constructor; discriminate.
Defined.

Lemma lower_bound_only_by_case (a a' : string) :
  lower a = lower a' -> given (Some a) = given (Some a').
Proof.
  intros E. simpl. f_equal.
  destruct a, a'; try reflexivity; simpl in E; discriminate E.
Qed.

(** X7. What the cheque filter keeps is a part of the rows in their
    order, each with both cheque fields, and it depends on the bounds
    only up to case: two bounds with the same lower-cased text keep the
    same rows. *)
Theorem cheque_filter_keeps (min_amount max_amount : option string) (data : list record) :
  cheque_filter min_amount max_amount data `sublist_of` data
  /\ Forall has_cheques (cheque_filter min_amount max_amount data)
  /\ (forall a a' b b',
        lower a = lower a' -> lower b = lower b' ->
        cheque_filter (Some a) (Some b) data = cheque_filter (Some a') (Some b') data).
Proof.
  rewrite cheque_filter_filter. split; [apply sublist_filter|]. split.
  - apply Forall_forall. intros r Hr. apply list_elem_of_filter in Hr as [Hk _].
    now apply cheque_keeps_iff in Hk.
  - intros a a' b b' Ea Eb. rewrite !cheque_filter_filter.
    apply list_filter_iff. intros r. unfold cheque_keeps.
    rewrite (lower_bound_only_by_case a a' Ea), (lower_bound_only_by_case b b' Eb), Ea, Eb.
    reflexivity.
Qed.

Lemma cheque_filter_keeps_witness :
  let r : record :=
    {[ "First cheque minimum" := VStr "1M"; "First cheque maximum" := VStr "5M" ]} in
  cheque_filter (Some "500K") (Some "9m") [r] = cheque_filter (Some "500k") (Some "9M") [r].
Proof.
  intros r.
  apply (cheque_filter_keeps None None [r]); reflexivity.
Defined.

End ListingMore.


(** ** The lists of types and countries *)

Module DistinctFacts.
Import Py Eff Coll Server Spec Notions EffFacts StrFacts CollFacts.

Lemma str_lt_total (x y : string) :
  str_lt y x = false -> x <> y -> str_lt x y = true.
Proof.
  unfold str_lt, String.ltb. intros H Hne.
  rewrite String.compare_antisym.
  destruct (String.compare y x) eqn:E; simpl; try reflexivity; try discriminate.
  apply String.compare_eq_iff in E. congruence.
Qed.

Lemma insert_str_perm (x : string) (l : list string) : insert_str x l ≡ₚ x :: l.
Proof.
  induction l as [|y l IH]; simpl; [reflexivity|].
  destruct (str_lt y x); [|reflexivity].
  rewrite IH. apply Permutation_swap.
Qed.

Lemma insert_str_head (x y : string) (l : list string) :
  lex_lt y x -> HdRel lex_lt y l -> HdRel lex_lt y (insert_str x l).
Proof.
  intros Hyx Hl. destruct l as [|z l]; simpl; [now constructor|].
  destruct (str_lt z x); constructor; [|assumption].
  now inversion Hl.
Qed.

Lemma insert_str_sorted (x : string) (l : list string) :
  Sorted lex_lt l -> x ∉ l -> Sorted lex_lt (insert_str x l).
Proof.
  induction 1 as [|y l Hl IH Hy]; intros Hx; simpl.
  - repeat constructor.
  - apply not_elem_of_cons in Hx as [Hne Hx].
    destruct (str_lt y x) eqn:E.
    + constructor; [now apply IH|].
      apply insert_str_head; [now apply str_lt_spec | assumption].
    + constructor; [now constructor|].
      constructor. apply str_lt_spec. now apply str_lt_total.
Qed.

Lemma foldr_insert_sorted (l : list string) :
  NoDup l -> Sorted lex_lt (foldr insert_str [] l) /\ foldr insert_str [] l ≡ₚ l.
Proof.
  induction 1 as [|x l Hx Hl [IHs IHp]]; simpl.
  - split; [constructor | reflexivity].
  - split.
    + apply insert_str_sorted; [assumption|]. now rewrite IHp.
    + now rewrite insert_str_perm, IHp.
Qed.

(** [sorted] of a set: its elements, each once, in strictly ascending
    order. *)
Lemma sorted_set_spec (s : gset string) :
  Sorted lex_lt (sorted_set s)
  /\ (forall x, x ∈ sorted_set s <-> x ∈ s)
  /\ length (sorted_set s) = size s.
Proof.
  unfold sorted_set.
  destruct (foldr_insert_sorted (elements s) (NoDup_elements s)) as [Hs Hp].
  split; [exact Hs|]. split.
  - intros x. now rewrite Hp, elem_of_elements.
  - now rewrite Hp.
Qed.

Lemma collect_types_from (data : list record) (acc : gset string) (x : string) :
  x ∈ foldl (fun (investor_types : gset string) record =>
               let investor_type := get record "Investor type" in
               if truthy investor_type then investor_types ∪ {[ str investor_type ]}
               else investor_types) acc data
  <-> x ∈ acc \/ (x <> "" /\ exists r, r ∈ data /\ get r "Investor type" = VStr x).
Proof.
  revert acc. induction data as [|r data IH]; intros acc; simpl.
  - split; [now left|]. intros [H|(_ & r & Hr & _)]; [assumption | inversion Hr].
  - rewrite IH. clear IH. split.
    + intros [H|(Hx & r' & Hr' & E)].
      * destruct (get r "Investor type") as [|s] eqn:Er; simpl in H; [now left|].
        destruct (String.eqb_spec s "") as [->|Hs]; simpl in H; [now left|].
        apply elem_of_union in H as [H|H]; [now left|].
        apply elem_of_singleton in H. subst x. right. split; [assumption|].
        exists r. split; [left | assumption].
      * right. split; [assumption|]. exists r'. split; [now right | assumption].
    + intros [H|(Hx & r' & Hr' & E)].
      * left. destruct (truthy (get r "Investor type")); [|assumption].
        apply elem_of_union. now left.
      * apply elem_of_cons in Hr' as [->|Hr'].
        -- left. rewrite E. simpl.
           destruct (String.eqb_spec x "") as [->|_]; [contradiction|]. simpl.
           apply elem_of_union. right. now apply elem_of_singleton.
        -- right. split; [assumption|]. now exists r'.
Qed.

(** X8. The list of investor types names exactly the non-empty types
    that occur in the rows, each once, in strictly ascending order of
    their text, and the total under it is their number.  Rows without
    any type give the message that no types were found. *)
Theorem types_are_listed (data : list record) w tr :
  let q := build_query "dec-2024" (Some ["Investor type"]) None None in
  let names := sorted_set (collect_investor_types data) in
  configured w ->
  remote w tr q = Rows data ->
  data <> [] ->
  Sorted lex_lt names
  /\ (forall x, x ∈ names
                <-> x <> "" /\ exists r, r ∈ data /\ get r "Investor type" = VStr x)
  /\ get_available_investor_types w tr
     = (Return
          (match names with
           | [] => "No investor types found in the database."
           | _ => "Available investor types in the database:" +:+ nl +:+ nl
                  +:+ numbered_lines names
                  +:+ nl +:+ "Total: " +:+ str_of_nat (length names)
                  +:+ " unique investor types"
           end),
        tr ++ [EFetch q]).
Proof.
  intros q names Hw Hq Hne.
  destruct (sorted_set_spec (collect_investor_types data)) as (Hs & Hin & Hlen).
  fold names in Hs, Hin, Hlen.
  split; [exact Hs|]. split.
  - intros x. rewrite Hin. unfold collect_investor_types.
    rewrite collect_types_from. split; [intros [H|H]; [set_solver | exact H] | now right].
  - unfold get_available_investor_types. apply guarded_return.
    unfold get_available_investor_types_body.
    rewrite bind_unfold, (fetch_rows _ _ _ _ _ _ data) by assumption.
    destruct data as [|r data]; [contradiction|]. cbv zeta.
    fold names. rewrite Hlen.
    destruct (decide (collect_investor_types (r :: data) = ∅)) as [E|E].
    + assert (names = []) as ->; [|reflexivity].
      apply length_zero_iff_nil. rewrite Hlen, E. apply size_empty.
    + destruct names as [|n names']; [|reflexivity].
      exfalso. apply E. simpl in Hlen. symmetry in Hlen.
      apply size_empty_inv in Hlen. now apply leibniz_equiv.
Qed.

Lemma types_are_listed_witness :
  let a : record := {[ "Investor type" := VStr "VC" ]} in
  let b : record := {[ "Investor type" := VStr "Angel network" ]} in
  let w := World (Some "https://db") (Some "key") (fun _ _ => Rows [a; b; a]) in
  (get_available_investor_types w []).1
  = Return ("Available investor types in the database:" +:+ nl +:+ nl
            +:+ "1. Angel network" +:+ nl +:+ "2. VC" +:+ nl
            +:+ nl +:+ "Total: 2 unique investor types").
Proof.
  intros a b w.
  destruct (types_are_listed [a; b; a] w []) as (_ & _ & H);
    [split; reflexivity | reflexivity | discriminate |].
  rewrite H. vm_compute. reflexivity.
Defined.

Lemma lstrip_start (s : string) : starts_with_space (lstrip s) = false.
Proof.
  induction s as [|c s IH]; simpl; [reflexivity|].
  destruct (is_space c) eqn:E; [exact IH | exact E].
Qed.

Lemma rstrip_end (s : string) : ends_with_space (rstrip s) = false.
Proof.
  induction s as [|c s IH]; simpl; [reflexivity|].
  destruct (rstrip s) as [|d r] eqn:E.
  - destruct (is_space c) eqn:Ec; simpl; [reflexivity | exact Ec].
  - exact IH.
Qed.

Lemma rstrip_start (s : string) :
  starts_with_space s = false -> starts_with_space (rstrip s) = false.
Proof.
  destruct s as [|c s]; simpl; [reflexivity|]. intros Hc.
  destruct (rstrip s); [now rewrite Hc | exact Hc].
Qed.

(** [strip] leaves no white space at either end. *)
Lemma strip_clean (s : string) :
  starts_with_space (strip s) = false /\ ends_with_space (strip s) = false.
Proof.
  unfold strip. split; [apply rstrip_start, lstrip_start | apply rstrip_end].
Qed.

Lemma add_names_from (tokens : list string) (acc : gset string) (x : string) :
  x ∈ foldl (fun (countries : gset string) single_country =>
               countries ∪ {[ strip single_country ]}) acc tokens
  <-> x ∈ acc \/ x ∈ strip <$> tokens.
Proof.
  revert acc. induction tokens as [|t tokens IH]; intros acc; simpl.
  - split; [now left | intros [H|H]; [assumption | inversion H]].
  - rewrite IH, elem_of_union, elem_of_singleton, elem_of_cons. tauto.
Qed.

Lemma collect_countries_from (data : list record) (acc : gset string) (x : string) :
  x ∈ foldl (fun (countries : gset string) record =>
               let country := get record "Countries of investment" in
               if truthy country then
                 if has_char comma (str country) then
                   foldl (fun (countries : gset string) single_country =>
                            countries ∪ {[ strip single_country ]})
                         countries (split_char comma (str country))
                 else countries ∪ {[ strip (str country) ]}
               else countries) acc data
  <-> x ∈ acc
      \/ exists r, r ∈ data /\ truthy (get r "Countries of investment") = true
                   /\ x ∈ country_names (str (get r "Countries of investment")).
Proof.
  revert acc. induction data as [|r data IH]; intros acc; simpl.
  - split; [now left|]. intros [H|(r & Hr & _)]; [assumption | inversion Hr].
  - rewrite IH. clear IH.
    assert (Hstep :
      x ∈ (if truthy (get r "Countries of investment") then
             if has_char comma (str (get r "Countries of investment")) then
               foldl (fun (countries : gset string) single_country =>
                        countries ∪ {[ strip single_country ]})
                     acc (split_char comma (str (get r "Countries of investment")))
             else acc ∪ {[ strip (str (get r "Countries of investment")) ]}
           else acc)
      <-> x ∈ acc \/ (truthy (get r "Countries of investment") = true
                      /\ x ∈ country_names (str (get r "Countries of investment")))).
    { unfold country_names.
      destruct (truthy (get r "Countries of investment")).
      - destruct (has_char comma (str (get r "Countries of investment"))).
        + rewrite add_names_from. tauto.
        + rewrite elem_of_union, elem_of_singleton, list_elem_of_singleton. tauto.
      - split; [now left | intros [H|[H _]]; [assumption | discriminate]]. }
    rewrite Hstep. clear Hstep. split.
    + intros [[H|[Ht Hx]]|(r' & Hr' & Ht & Hx)].
      * now left.
      * right. exists r. split; [left | now split].
      * right. exists r'. split; [now right | now split].
    + intros [H|(r' & Hr' & Ht & Hx)].
      * left. now left.
      * apply elem_of_cons in Hr' as [->|Hr'].
        -- left. right. now split.
        -- right. exists r'. now split.
Qed.

(** X9. The list of countries names exactly the trimmed parts of the
    countries values of the rows, a value with a comma giving one name
    for each part, each name once and in strictly ascending order.  No
    listed name begins or ends with white space, and the total under the
    list is the number of names. *)
Theorem countries_are_listed (data : list record) w tr :
  let q := build_query "dec-2024" (Some ["Countries of investment"]) None None in
  let names := sorted_set (collect_countries data) in
  configured w ->
  remote w tr q = Rows data ->
  data <> [] ->
  Sorted lex_lt names
  /\ (forall x, x ∈ names
                <-> exists r, r ∈ data
                              /\ truthy (get r "Countries of investment") = true
                              /\ x ∈ country_names (str (get r "Countries of investment")))
  /\ Forall (fun x => starts_with_space x = false /\ ends_with_space x = false) names
  /\ get_available_countries w tr
     = (Return
          (match names with
           | [] => "No countries found in the database."
           | _ => "Available countries in the database:" +:+ nl +:+ nl
                  +:+ numbered_lines names
                  +:+ nl +:+ "Total: " +:+ str_of_nat (length names)
                  +:+ " unique countries"
           end),
        tr ++ [EFetch q]).
Proof.
  intros q names Hw Hq Hne.
  destruct (sorted_set_spec (collect_countries data)) as (Hs & Hin & Hlen).
  fold names in Hs, Hin, Hlen.
  assert (Hmem : forall x, x ∈ names
                <-> exists r, r ∈ data
                              /\ truthy (get r "Countries of investment") = true
                              /\ x ∈ country_names (str (get r "Countries of investment"))).
  { intros x. rewrite Hin. unfold collect_countries. rewrite collect_countries_from.
    split; [intros [H|H]; [set_solver | exact H] | now right]. }
  split; [exact Hs|]. split; [exact Hmem|]. split.
  - apply Forall_forall. intros x Hx. apply Hmem in Hx as (r & _ & _ & Hx).
    unfold country_names in Hx.
    destruct (has_char comma (str (get r "Countries of investment"))).
    + apply list_elem_of_fmap in Hx as (t & -> & _). apply strip_clean.
    + apply list_elem_of_singleton in Hx. subst x. apply strip_clean.
  - unfold get_available_countries. apply guarded_return.
    unfold get_available_countries_body.
    rewrite bind_unfold, (fetch_rows _ _ _ _ _ _ data) by assumption.
    destruct data as [|r data]; [contradiction|]. cbv zeta.
    fold names. rewrite Hlen.
    destruct (decide (collect_countries (r :: data) = ∅)) as [E|E].
    + assert (names = []) as ->; [|reflexivity].
      apply length_zero_iff_nil. rewrite Hlen, E. apply size_empty.
    + destruct names as [|n names']; [|reflexivity].
      exfalso. apply E. simpl in Hlen. symmetry in Hlen.
      apply size_empty_inv in Hlen. now apply leibniz_equiv.
Qed.

Lemma countries_are_listed_witness :
  let a : record := {[ "Countries of investment" := VStr "USA, UK" ]} in
  let b : record := {[ "Countries of investment" := VStr " UK " ]} in
  let w := World (Some "https://db") (Some "key") (fun _ _ => Rows [a; b]) in
  (get_available_countries w []).1
  = Return ("Available countries in the database:" +:+ nl +:+ nl
            +:+ "1. UK" +:+ nl +:+ "2. USA" +:+ nl
            +:+ nl +:+ "Total: 2 unique countries").
Proof.
  intros a b w.
  destruct (countries_are_listed [a; b] w []) as (_ & _ & _ & H);
    [split; reflexivity | reflexivity | discriminate |].
  rewrite H. vm_compute. reflexivity.
Defined.

End DistinctFacts.


(** ** Thesis analysis *)

Module ThesisFacts.
Import Py Eff Coll Server Spec Notions EffFacts StrFacts CollFacts ListingFacts.

Lemma value_eqb_true (a b : value) : value_eqb a b = true <-> a = b.
Proof.
  destruct a as [|s], b as [|t]; simpl; try (split; [discriminate | congruence]).
  - split; reflexivity.
  - rewrite String.eqb_eq. split; congruence.
Qed.

Lemma collect_thesis_from (data : list record) (acc : list thesis_item) :
  foldl (fun thesis_data record =>
           let thesis := get record "Investment thesis" in
           let investor_type := get record "Investor type" in
           let stage := get record "Stage of investment" in
           if truthy thesis && negb (value_eqb thesis (VStr "N/A"))
           then thesis_data ++ [ThesisItem (str thesis) investor_type stage]
           else thesis_data) acc data
  = acc ++ (to_item <$> filter has_thesis data).
Proof.
  revert acc. induction data as [|r data IH]; intros acc; simpl.
  - now rewrite app_nil_r.
  - rewrite IH, filter_cons. clear IH.
    destruct (decide (has_thesis r)) as [[Ht Hn]|Hno].
    + rewrite Ht.
      destruct (value_eqb (get r "Investment thesis") (VStr "N/A")) eqn:En.
      * apply value_eqb_true in En. contradiction.
      * simpl. now rewrite <- app_assoc.
    + destruct (truthy (get r "Investment thesis")) eqn:Et; [|reflexivity].
      destruct (value_eqb (get r "Investment thesis") (VStr "N/A")) eqn:En; [reflexivity|].
      exfalso. apply Hno. split; [exact Et|].
      intros E. apply value_eqb_true in E. congruence.
Qed.

Lemma dict_set_new {K V} `{EqDecision K} (d : list (K * V)) (k : K) (v : V) :
  k ∉ d.*1 -> dict_set d k v = d ++ [(k, v)].
Proof.
  induction d as [|[k0 v0] d IH]; simpl; [reflexivity|].
  intros Hnin. apply not_elem_of_cons in Hnin as [Hne Hnin].
  destruct (decide (k = k0)); [congruence|]. simpl. f_equal. now apply IH.
Qed.

Lemma count_keywords_from (thesis_data : list thesis_item) (keywords : list string)
    (acc : list (string * nat)) :
  NoDup keywords ->
  (forall k, k ∈ keywords -> k ∉ acc.*1) ->
  foldl (fun keyword_counts keyword =>
           let count :=
             length (filter (fun item => contains (lower keyword) (lower (item_thesis item)) = true)
                            thesis_data) in
           if (0 <? count)%nat then dict_set keyword_counts keyword count
           else keyword_counts) acc keywords
  = acc ++ omap (fun k => if (0 <? mention_count thesis_data k)%nat
                          then Some (k, mention_count thesis_data k) else None) keywords.
Proof.
  intros Hnd. revert acc. induction Hnd as [|k ks Hk Hks IH]; intros acc Hacc; simpl.
  - now rewrite app_nil_r.
  - fold (mention_count thesis_data k).
    change (length (filter (fun item => contains (lower k) (lower (item_thesis item)) = true)
                      thesis_data)) with (mention_count thesis_data k).
    destruct (0 <? mention_count thesis_data k)%nat.
    + rewrite dict_set_new by (apply Hacc; left).
      rewrite IH, <- app_assoc; [reflexivity|].
      intros k' Hk'. rewrite fmap_app. simpl. intros Hin.
      apply elem_of_app in Hin as [Hin|Hin].
      * apply (Hacc k'); [now right | assumption].
      * apply list_elem_of_singleton in Hin. congruence.
    + apply IH. intros k' Hk'. apply Hacc. now right.
Qed.

Lemma common_keywords_NoDup : NoDup common_keywords.
Proof. apply (bool_decide_unpack (NoDup common_keywords)). vm_compute. reflexivity. Qed.

Lemma count_keywords_spec (thesis_data : list thesis_item) :
  count_keywords thesis_data
  = omap (fun k => if (0 <? mention_count thesis_data k)%nat
                   then Some (k, mention_count thesis_data k) else None)
         common_keywords.
Proof.
  unfold count_keywords.
  rewrite count_keywords_from; [reflexivity | apply common_keywords_NoDup |].
  intros k _ H. inversion H.
Qed.

Lemma count_keywords_bound (thesis_data : list thesis_item) :
  Forall (fun kc => kc.1 ∈ common_keywords /\ (1 <= kc.2 <= length thesis_data)%nat)
         (count_keywords thesis_data).
Proof.
  rewrite count_keywords_spec. apply Forall_forall. intros [k c] Hin.
  apply list_elem_of_omap in Hin as (k' & Hk' & E).
  destruct (Nat.ltb_spec 0 (mention_count thesis_data k')); [|discriminate].
  injection E as <- <-. cbn [fst snd]. split; [exact Hk'|]. split; [lia|].
  apply length_filter.
Qed.

(** X10. The thesis analysis works on the rows that have a thesis other
    than the placeholder, in their order.  Its theme table holds, in the
    order of the keyword list, each keyword that at least one thesis
    mentions (as a substring, whatever the case) with the number of
    theses that do; so every count is at least 1 and at most the number
    of analysed theses. *)
Theorem thesis_themes (data : list record) :
  let thesis_data := collect_thesis_data data in
  thesis_data = to_item <$> filter has_thesis data
  /\ count_keywords thesis_data
     = omap (fun k => if (0 <? mention_count thesis_data k)%nat
                      then Some (k, mention_count thesis_data k) else None)
            common_keywords
  /\ Forall (fun kc => kc.1 ∈ common_keywords
                       /\ (1 <= kc.2 <= length thesis_data)%nat)
            (count_keywords thesis_data)
  /\ (length (themes thesis_data) <= 10)%nat.
Proof.
  intros thesis_data.
  split; [unfold thesis_data, collect_thesis_data; now rewrite collect_thesis_from|].
  split; [apply count_keywords_spec|].
  split; [apply count_keywords_bound|].
  unfold themes. rewrite length_take. lia.
Qed.

Lemma group_theses_fold (thesis_data : list thesis_item) :
  group_theses thesis_data = foldl group_step [] thesis_data.
Proof. reflexivity. Qed.

Lemma group_step_get (d : list (value * list string)) (item : thesis_item) (v : value) :
  dict_get (group_step d item) v
  = if decide (v = item_type item)
    then Some (default [] (dict_get d v) ++ [item_thesis item])
    else dict_get d v.
Proof.
  unfold group_step. cbv zeta. rewrite dict_get_set.
  destruct (decide (v = item_type item)) as [->|Hne].
  - destruct (dict_get d (item_type item)) as [l|] eqn:E.
    + now rewrite E.
    + rewrite dict_get_set, decide_True by reflexivity. reflexivity.
  - destruct (dict_get d (item_type item)); [reflexivity|].
    rewrite dict_get_set. now rewrite decide_False.
Qed.

Lemma group_step_NoDup (d : list (value * list string)) (item : thesis_item) :
  NoDup d.*1 -> NoDup (group_step d item).*1.
Proof.
  intros Hd. unfold group_step. cbv zeta. apply dict_set_NoDup.
  destruct (dict_get d (item_type item)); [assumption | now apply dict_set_NoDup].
Qed.

Lemma sizes_cons v l d : sizes ((v, l) :: d) = (length l + sizes d)%nat.
Proof. reflexivity. Qed.

Lemma sizes_set_empty (d : list (value * list string)) (k : value) :
  dict_get d k = None -> sizes (dict_set d k []) = sizes d.
Proof.
  induction d as [|[k0 l0] d IH]; simpl; [reflexivity|].
  destruct (decide (k = k0)); [discriminate|]. intros H.
  rewrite !sizes_cons, IH by assumption. reflexivity.
Qed.

Lemma sizes_set_more (d : list (value * list string)) (k : value) (x : string) :
  is_Some (dict_get d k) ->
  sizes (dict_set d k (default [] (dict_get d k) ++ [x])) = S (sizes d).
Proof.
  induction d as [|[k0 l0] d IH]; simpl; [intros [? [=]]|].
  destruct (decide (k = k0)) as [->|Hne]; intros H.
  - simpl. rewrite !sizes_cons, length_app. simpl. lia.
  - rewrite !sizes_cons, IH by assumption. lia.
Qed.

Lemma group_step_sizes (d : list (value * list string)) (item : thesis_item) :
  sizes (group_step d item) = S (sizes d).
Proof.
  unfold group_step. cbv zeta.
  destruct (dict_get d (item_type item)) as [l|] eqn:E.
  - apply sizes_set_more. rewrite E. eauto.
  - rewrite sizes_set_more.
    + now rewrite sizes_set_empty.
    + rewrite dict_get_set, decide_True by reflexivity. eauto.
Qed.

Lemma group_from (thesis_data : list thesis_item) (acc : list (value * list string)) :
  NoDup acc.*1 ->
  NoDup (foldl group_step acc thesis_data).*1
  /\ sizes (foldl group_step acc thesis_data) = (sizes acc + length thesis_data)%nat
  /\ forall v,
       dict_get (foldl group_step acc thesis_data) v
       = match theses_of v thesis_data with
         | [] => dict_get acc v
         | l => Some (default [] (dict_get acc v) ++ l)
         end.
Proof.
  revert acc. induction thesis_data as [|item td IH]; intros acc Hacc; simpl.
  - split; [assumption|]. split; [lia | reflexivity].
  - destruct (IH (group_step acc item) (group_step_NoDup _ _ Hacc)) as (Hn & Hs & Hg).
    split; [exact Hn|]. split; [rewrite Hs, group_step_sizes; lia|].
    intros v. rewrite Hg, group_step_get. unfold theses_of. rewrite filter_cons.
    destruct (decide (item_type item = v)) as [<-|Hne].
    + rewrite decide_True by reflexivity. rewrite fmap_cons. simpl.
      destruct (item_thesis <$> filter (fun i => item_type i = item_type item) td);
        [reflexivity | now rewrite <- app_assoc].
    + now rewrite decide_False by congruence.
Qed.

(** X11. The breakdown by investor type groups the analysed theses by
    the type of their row, a missing type being a group of its own: each
    type that occurs has one group, holding its theses in row order, and
    the groups together hold every thesis once. *)
Theorem thesis_groups (thesis_data : list thesis_item) :
  NoDup (group_theses thesis_data).*1
  /\ (forall v, dict_get (group_theses thesis_data) v
                = match theses_of v thesis_data with
                  | [] => None
                  | l => Some l
                  end)
  /\ sum_list (length <$> (group_theses thesis_data).*2) = length thesis_data.
Proof.
  rewrite group_theses_fold.
  destruct (group_from thesis_data []) as (Hn & Hs & Hg); [constructor|].
  split; [exact Hn|]. split; [|exact Hs].
  intros v. rewrite Hg. simpl. reflexivity.
Qed.

Lemma theme_loop (whole : nat) (rows : list (string * nat)) (acc : string) w tr :
  whole <> 0%nat ->
  Forall (fun kc => overflows kc.2 whole = false) rows ->
  for_each rows
    (fun formatted_response kc =>
       let '(keyword, count) := kc in
       percentage ← percentage count whole;
       mret (formatted_response +:+ bullet +:+ " " +:+ keyword +:+ ": "
             +:+ str_of_nat count +:+ " investors ("
             +:+ format_1f percentage +:+ "%)" +:+ nl))
    acc w tr
  = (Return (acc +:+ concat_str (theme_line whole <$> rows)),
     tr ++ ((fun kc => EDiv kc.2 whole) <$> rows)).
Proof.
  intros Hw Hrows.
  rewrite (for_each_steps (fun kc => overflows kc.2 whole = false)
             (fun formatted_response kc =>
                let '(keyword, count) := kc in
                percentage ← percentage count whole;
                mret (formatted_response +:+ bullet +:+ " " +:+ keyword +:+ ": "
                      +:+ str_of_nat count +:+ " investors ("
                      +:+ format_1f percentage +:+ "%)" +:+ nl))
             (fun acc kc => acc +:+ theme_line whole kc)
             (fun kc => [EDiv kc.2 whole])).
  - now rewrite (foldl_append (theme_line whole)), concat_flat.
  - intros acc' [k c] w' tr' Ho. rewrite bind_unfold, percentage_ok by assumption.
    reflexivity.
  - exact Hrows.
Qed.

Lemma group_lines (groups : list (value * list string)) (acc : string) :
  foldl (fun formatted_response tt =>
           let '(investor_type, theses) := tt in
           if (5 <? length theses)%nat then
             formatted_response +:+ bullet +:+ " " +:+ str investor_type
             +:+ ": " +:+ str_of_nat (length theses) +:+ " investors" +:+ nl
           else formatted_response) acc groups
  = acc +:+ concat_str (group_line <$> groups).
Proof.
  revert acc. induction groups as [|[v l] groups IH]; intros acc; simpl.
  - now rewrite append_nil_r.
  - rewrite IH. unfold group_line at 2. cbn [fst snd].
    destruct (5 <? length l)%nat; [now rewrite append_assoc | reflexivity].
Qed.

(** The themes never overflow a share of the analysed theses. *)
Lemma themes_fit (thesis_data : list thesis_item) :
  length thesis_data <> 0%nat ->
  Forall (fun kc => overflows kc.2 (length thesis_data) = false)
         (take 10 (sorted_desc snd (count_keywords thesis_data))).
Proof.
  intros Hlen. apply Forall_take.
  pose proof (count_keywords_bound thesis_data) as Hb.
  rewrite Forall_forall in Hb. apply Forall_forall. intros kc Hin.
  rewrite sorted_desc_perm in Hin. apply Hb in Hin as [_ [_ Hle]].
  now apply no_overflow.
Qed.

(** The report of the thesis analysis, for the analysed theses. *)
Lemma thesis_tail (thesis_data : list thesis_item) (header : string) w tr :
  thesis_data <> [] ->
  (formatted_response ←
     for_each (take 10 (sorted_desc snd (count_keywords thesis_data)))
       (fun formatted_response kc =>
          let '(keyword, count) := kc in
          percentage ← percentage count (length thesis_data);
          mret (formatted_response +:+ bullet +:+ " " +:+ keyword +:+ ": "
                +:+ str_of_nat count +:+ " investors ("
                +:+ format_1f percentage +:+ "%)" +:+ nl))
       header;
   mret (foldl (fun formatted_response tt =>
                  let '(investor_type, theses) := tt in
                  if (5 <? length theses)%nat then
                    formatted_response +:+ bullet +:+ " " +:+ str investor_type
                    +:+ ": " +:+ str_of_nat (length theses) +:+ " investors" +:+ nl
                  else formatted_response)
               (formatted_response +:+ nl +:+ "Thesis Analysis by Investor Type:" +:+ nl)
               (group_theses thesis_data))) w tr
  = (Return (header
             +:+ concat_str (theme_line (length thesis_data) <$> take 10 (sorted_desc snd (count_keywords thesis_data)))
             +:+ nl +:+ "Thesis Analysis by Investor Type:" +:+ nl
             +:+ concat_str (group_line <$> group_theses thesis_data)),
     tr ++ ((fun kc => EDiv kc.2 (length thesis_data)) <$> take 10 (sorted_desc snd (count_keywords thesis_data)))).
Proof.
  intros Hne.
  assert (Hlen : length thesis_data <> 0%nat)
    by (destruct thesis_data; [contradiction | discriminate]).
  rewrite bind_unfold.
  rewrite (theme_loop (length thesis_data) _ header w tr Hlen (themes_fit thesis_data Hlen)).
  unfold mret, py_ret. cbn [fst snd]. rewrite group_lines.
  now rewrite !append_assoc.
Qed.

(** X12. On rows of which at least one has a thesis, the thesis analysis
    reports the number of analysed theses, at most ten themes by
    descending count, each with its share of the analysed theses, and one
    line for each investor type with more than five theses.  It divides
    only by the number of analysed theses.  Rows without any thesis give
    the message that no thesis data was found. *)
Theorem thesis_report (data : list record) w tr :
  let thesis_data := collect_thesis_data data in
  configured w ->
  remote w tr thesis_query = Rows data ->
  data <> [] ->
  analyze_investment_thesis w tr
  = (Return (match thesis_data with
             | [] => "No investment thesis data found."
             | _ => thesis_report_text data
             end),
     (tr ++ [EFetch thesis_query])
     ++ ((fun kc => EDiv kc.2 (length thesis_data)) <$> themes thesis_data)).
Proof.
  intros thesis_data Hw Hq Hne.
  unfold analyze_investment_thesis. apply guarded_return.
  unfold analyze_investment_thesis_body, thesis_query, thesis_report_text, themes.
  rewrite bind_unfold, (fetch_rows _ _ _ _ _ _ data) by assumption.
  destruct data as [|r data]; [contradiction|]. cbv zeta.
  subst thesis_data.
  generalize (collect_thesis_data (r :: data)). intros thesis_data.
  destruct thesis_data as [|item thesis_data]; [now rewrite app_nil_r|].
  rewrite thesis_tail by discriminate.
  now rewrite !append_assoc.
Qed.

Lemma thesis_report_witness :
  let a : record := {[ "Investment thesis" := VStr "Applied AI for fintech" ]} in
  let b : record := {[ "Investment thesis" := VStr "N/A" ]} in
  let w := World (Some "https://db") (Some "key") (fun _ _ => Rows [a; b; a]) in
  (analyze_investment_thesis w []).2 = [EFetch thesis_query; EDiv 2 2; EDiv 2 2].
Proof.
  intros a b w.
  rewrite (thesis_report [a; b; a] w []);
    [vm_compute; reflexivity | split; reflexivity | reflexivity | discriminate].
Defined.

End ThesisFacts.
